(** * Manifest provenance observation: a shallow embedding of the observer's
      provenance helpers (package [observer]) and the properties of its
      URL derivation, extraction, commit resolution, history lookup and
      manifest location. *)

From Stdlib Require Import String Ascii List Bool Arith Lia.
From stdpp Require Import base option gmap strings.

Local Open Scope string_scope.
Local Open Scope list_scope.

(** ** Go's [strings] package, as far as the observer uses it. *)

Module strings.

(** [strings.Index(s, substr)]: position of the first occurrence of
    [substr] in [s]; Go's [-1] is [None]. *)
Definition Index (s substr : string) : option nat := String.index 0 substr s.

(** [s[i:]] *)
Definition from (i : nat) (s : string) : string :=
  String.substring i (String.length s - i) s.

(** [s[:j]] *)
Definition upto (j : nat) (s : string) : string := String.substring 0 j s.

(** [strings.Replace(s, old, new, n)] for [n >= 0]: the loop of the Go
    implementation, one iteration per replacement.  The early exits
    [old == new || n == 0] and [Count(s, old) == 0] return [s] itself.
    Every call site of the observer passes a non-empty [old]. *)
Fixpoint Replace (s old new : string) (n : nat) : string :=
  match n with
  | O => s
  | S n' =>
      if String.eqb old new then s
      else match Index s old with
           | None => s
           | Some j =>
               upto j s +:+ new +:+ Replace (from (j + String.length old) s) old new n'
           end
  end.

(** [strings.HasSuffix(s, suffix)] *)
Definition HasSuffix (s suffix : string) : bool :=
  Nat.leb (String.length suffix) (String.length s) &&
  String.eqb (from (String.length s - String.length suffix) s) suffix.

End strings.

(** ** URL derivation *)

Definition convertToCommitDetailURL (uri commit : string) : string :=
  let replaced := strings.Replace uri ".git" "/commits" 1 in
  let replaced1 := strings.Replace replaced "github.com" "api.github.com/repos" 1 in
  replaced1 +:+ "/" +:+ commit.

Definition convertToCommitHistoryURL (uri commit : string) : string :=
  let replaced := strings.Replace uri ".git" "/commits" 1 in
  strings.Replace replaced "github.com" "api.github.com/repos" 1.

(** ** Data model

    The struct declarations live in files of the package that are not part
    of the observed sources; the records below carry exactly the fields the
    functions read and write. *)

(** [map[string]string], the digest set of an attestation material. *)
Abbreviation DigestSet := (gmap string string).

(** [unstructured.Unstructured], seen through the accessors the observer
    calls on it. *)
Record Unstructured := {
  GetAPIVersion : string;
  GetKind : string;
  GetName : string;
  GetNamespace : string;
  Object : string
}.

(** [GroupVersionKind().Kind] of an object: its kind, unless the
    apiVersion does not parse as a group and version (it has more than one
    [/]), in which case the whole GroupVersionKind is empty. *)
Definition slashes (s : string) : nat :=
  length (List.filter (Ascii.eqb "/"%char) (list_ascii_of_string s)).

Definition GroupVersionKind_Kind (u : Unstructured) : string :=
  if Nat.leb 2 (slashes (GetAPIVersion u)) then "" else GetKind u.

(** An attestation material and a provenance statement of the manifest
    verification library, with the fields the extractor reads. *)
Record ProvenanceMaterial := {
  URI : string;
  Digest : DigestSet
}.

Record Provenance := {
  p_Artifact : string;
  p_ArtifactType : string;
  p_Hash : string;
  AttestationMaterials : list ProvenanceMaterial
}.

Record VerifyResult := {
  v_Resource : Unstructured;
  Provenances : list Provenance
}.

Record ManifestProvenanceInfo := {
  i_Artifact : string;
  i_CommitID : string;
  i_GitApiURL : string;
  i_Hash : string;
  i_GitRepo : string
}.

Record ManifestProvenanceResult := {
  r_GitRepo : string;
  r_GitApiURL : string;
  r_CommitID : string;
  r_CommitDate : string;
  r_Author : string;
  r_Files : list string;
  r_Hash : string;
  r_Artifact : string
}.

Record ObservationResourceResult := {
  o_Kind : string;
  o_Namespace : string;
  o_Name : string;
  o_Resource : Unstructured;
  o_ManifestProvenanceInfo : list ManifestProvenanceInfo
}.

(** Modelled from the spec: the declaration of
    [FinalObservationResourceResult] is not among the sources.  Its kind,
    namespace and name are the fields [getTargetResourceLog] reads; the
    resource body and the list of resolved provenance results follow the
    data model of the specification. *)
Record FinalObservationResourceResult := {
  f_Kind : string;
  f_Namespace : string;
  f_Name : string;
  f_Resource : Unstructured;
  f_ManifestProvenanceResults : list ManifestProvenanceResult
}.

Record CommitData := {
  Commit : string;
  Date : string;
  Author : string;
  Files : list string
}.

(** Values of Go's [interface{}] as [encoding/json] produces them. *)
#[warnings="-register-all"]
Inductive value :=
| Nil
| Bool (b : bool)
| Float64 (lexeme : string)
| Str (s : string)
| Slice (l : list value)
| Map (m : gmap string value).

Definition typeName (v : value) : string :=
  match v with
  | Nil => "nil"
  | Bool _ => "bool"
  | Float64 _ => "float64"
  | Str _ => "string"
  | Slice _ => "[]interface {}"
  | Map _ => "map[string]interface {}"
  end.

(** The name [encoding/json] gives the kind of a JSON value in its type
    errors. *)
Definition jsonKind (v : value) : string :=
  match v with
  | Nil => "null"
  | Bool _ => "bool"
  | Float64 _ => "number"
  | Str _ => "string"
  | Slice _ => "array"
  | Map _ => "object"
  end.

(** ** The process and its surroundings

    The resolver reads the environment, writes log lines and talks to a
    remote service.  A [World] holds what the process can observe and what
    an observer of the process can see: the environment, the remote
    service (whose answer may depend on the traffic it has already seen),
    the requests put on the wire so far (oldest first) and the lines
    written to the log and to standard output. *)

Record Request := {
  Method : string;
  URL : string;
  Header : list (string * string)
}.

(** What [client.Get] and the following [ioutil.ReadAll] deliver:
    [TransportError] is an error that comes with a nil response (no
    connection, TLS failure, timeout, unsupported scheme); [Served] is a
    response of any status code, with the error of reading its body if
    there is one and the bytes read until then; [ResponseWithError] is an
    error that comes with a response whose body is already closed (the
    client gives up on a chain of redirects), with the error of reading
    that body if there is one (there is none when the response had no
    body).  The [wire] of a world lists the requests the process asks the
    client to send; the requests by which the client follows redirects
    are the client's own and are not listed. *)
Inductive Response :=
| TransportError (err : string)
| Served (body : string) (readErr : option string)
| ResponseWithError (err : string) (body : string) (readErr : option string).

Inductive Event :=
| log_Error (msg : string)
| fmt_Println (msg : string).

Record World := {
  environ : gmap string string;
  remote : list Request -> Request -> Response;
  wire : list Request;
  logged : list Event
}.

(** A run-time panic of the Go runtime. *)
Inductive Panic :=
| NilDereference
| InterfaceConversion (dynamic wanted : string).

Inductive Outcome (A : Type) :=
| Done (a : A)
| Panicked (p : Panic).
Arguments Done {A} a.
Arguments Panicked {A} p.

Definition M (A : Type) : Type := World -> Outcome A * World.

#[global] Instance M_ret : MRet M := fun A a w => (Done a, w).
#[global] Instance M_bind : MBind M := fun A B k c w =>
  match c w with
  | (Done a, w') => k a w'
  | (Panicked p, w') => (Panicked p, w')
  end.

Definition panic {A} (p : Panic) : M A := fun w => (Panicked p, w).

Definition appendLog (w : World) (events : list Event) : World :=
  {| environ := environ w; remote := remote w; wire := wire w;
     logged := logged w ++ events |}.

Definition appendWire (w : World) (req : Request) : World :=
  {| environ := environ w; remote := remote w; wire := wire w ++ [req];
     logged := logged w |}.

Definition emit (e : Event) : M unit := fun w => (Done tt, appendLog w [e]).

(** [os.Getenv]: the empty string when the variable is not set. *)
Definition os_Getenv (key : string) : M string := fun w =>
  (Done (default "" (environ w !! key)), w).

(** A GET request for [url] that carries no header field of the caller's. *)
Definition plainGet (url : string) : Request :=
  {| Method := "GET"; URL := url; Header := [] |}.

(** [client.Get(url)] on an [http.Client]: it builds its own request for
    [url] and sends it. *)
Definition client_Get (url : string) : M Response := fun w =>
  let req := plainGet url in
  (Done (remote w (wire w) req), appendWire w req).

Definition Header_Add (req : Request) (key val : string) : Request :=
  {| Method := Method req; URL := URL req; Header := Header req ++ [(key, val)] |}.

(** Single-result type assertions [x.(T)]: a panic when the dynamic type
    of [x] is not [T]. *)
Definition assertMap (v : value) : M (gmap string value) :=
  match v with
  | Map m => mret m
  | _ => panic (InterfaceConversion (typeName v) "map[string]interface {}")
  end.

Definition assertString (v : value) : M string :=
  match v with
  | Str s => mret s
  | _ => panic (InterfaceConversion (typeName v) "string")
  end.

Definition assertSlice (v : value) : M (list value) :=
  match v with
  | Slice l => mret l
  | _ => panic (InterfaceConversion (typeName v) "[]interface {}")
  end.

(** [m[key]] on a [map[string]interface{}]: the zero value [nil] for a
    missing key, and for every key of the nil map (which is [∅] here). *)
Definition at_key (m : gmap string value) (key : string) : value :=
  default Nil (m !! key).
Arguments at_key : simpl never.

Section Resolver.

(** [net/url]'s verdict on a URL string, as [http.NewRequest] uses it. *)
Variable url_Parse : string -> bool.

(** [encoding/json]'s reading of a byte string into an [interface{}]: a
    syntax error, or the decoded value together with the error of a number
    that does not fit a [float64] if there is one (the value is stored
    all the same, with nil for that number). *)
Variable json_decode : string -> string + (value * option string).

(** [http.NewRequest(method, url, nil)]: [None] is the nil request that
    comes with an error. *)
Definition http_NewRequest (method url : string) : option Request :=
  if url_Parse url then Some {| Method := method; URL := url; Header := [] |}
  else None.

(** [json.Unmarshal(body, &data)] into a nil [map[string]interface{}]:
    the error if any, and [data] afterwards.  An object fills the map,
    also when one of its numbers is reported; [null] leaves the map nil
    without an error; every other value is refused by its JSON kind (a
    number that is read as nil and reported is the body itself, a
    number). *)
Definition json_Unmarshal (body : string) : option string * gmap string value :=
  match json_decode body with
  | inl err => (Some err, ∅)
  | inr (Map m, numberErr) => (numberErr, m)
  | inr (Nil, None) => (None, ∅)
  | inr (Nil, Some _) =>
      (Some "json: cannot unmarshal number into Go value of type map[string]interface {}",
       ∅)
  | inr (v, _) =>
      (Some ("json: cannot unmarshal " +:+ jsonKind v
             +:+ " into Go value of type map[string]interface {}"), ∅)
  end.

Definition accessGitRepo (url token : string) : M string :=
  let bearer := "Bearer " +:+ token in
  match http_NewRequest "GET" url with
  | None =>
      (* [req.Header.Add] on the nil request *)
      panic NilDereference
  | Some req =>
      let req := Header_Add req "Authorization" bearer in
      (* [client.Get(url)], not [client.Do(req)] *)
      res ← client_Get url;
      match res with
      | TransportError err =>
          emit (log_Error ("Error reported from GitHub API" +:+ err));;
          (* [res.Body] on the nil response *)
          panic NilDereference
      | Served body None => mret body
      | Served body (Some err) =>
          emit (log_Error ("Error: fail to read body: " +:+ err));;
          mret body
      | ResponseWithError err body None =>
          emit (log_Error ("Error reported from GitHub API" +:+ err));;
          mret body
      | ResponseWithError err body (Some readErr) =>
          emit (log_Error ("Error reported from GitHub API" +:+ err));;
          emit (log_Error ("Error: fail to read body: " +:+ readErr));;
          mret body
      end
  end.

Definition fileName (file : value) : M string :=
  f ← assertMap file;
  assertString (at_key f "filename").

Fixpoint fileNamesOf (files : list value) (fileNames : list string) : M (list string) :=
  match files with
  | [] => mret fileNames
  | file :: rest =>
      name ← fileName file;
      fileNamesOf rest (fileNames ++ [name])
  end.

Definition getCommitInfoFromDetail (body cmtid : string) : M CommitData :=
  let '(err, data) := json_Unmarshal body in
  match err with
  | Some e => emit (fmt_Println ("Failed to unmarshal git data; err:  " +:+ e))
  | None => mret tt
  end;;
  c ← assertMap (at_key data "commit");
  a ← assertMap (at_key c "author");
  let author := at_key a "email" in
  cmtAuthor ← match author with
              | Nil => mret ""
              | _ => assertString author
              end;
  c ← assertMap (at_key data "commit");
  a ← assertMap (at_key c "author");
  let date := at_key a "date" in
  cmtDate ← assertString date;
  files ← assertSlice (at_key data "files");
  fileNames ← fileNamesOf files [];
  mret {| Commit := cmtid; Date := cmtDate; Author := cmtAuthor; Files := fileNames |}.

Definition setNewManifestProvenanceResult (prov : ManifestProvenanceInfo)
  : M ManifestProvenanceResult :=
  token ← os_Getenv "GIT_TOKEN";
  data ← accessGitRepo (i_GitApiURL prov) token;
  cmtd ← getCommitInfoFromDetail data (i_CommitID prov);
  mret {| r_GitRepo := i_GitRepo prov;
          r_GitApiURL := i_GitApiURL prov;
          r_CommitID := i_CommitID prov;
          r_CommitDate := Date cmtd;
          r_Author := Author cmtd;
          r_Files := Files cmtd;
          r_Hash := i_Hash prov;
          r_Artifact := i_Artifact prov |}.

End Resolver.

(** ** Provenance extraction *)

Definition getCommitID (digest : DigestSet) : string :=
  match digest !! "commit" with
  | Some val => val
  | None => ""
  end.

Section Extractor.

(** [k8smnfutil.ArtifactManifestImage], a constant of the manifest
    verification library. *)
Variable ArtifactManifestImage : string.

(** The body of the inner loop: one [ManifestProvenanceInfo] appended
    to the resource log per attestation material. *)
Definition appendProvenanceInfo (pr : Provenance)
    (resourceLog : ObservationResourceResult) (am : ProvenanceMaterial)
  : ObservationResourceResult :=
  let commitID := getCommitID (Digest am) in
  let url := convertToCommitDetailURL (URI am) commitID in
  let mprovinfo := {| i_Artifact := p_Artifact pr;
                      i_CommitID := commitID;
                      i_GitApiURL := url;
                      i_Hash := p_Hash pr;
                      i_GitRepo := URI am |} in
  {| o_Kind := o_Kind resourceLog;
     o_Namespace := o_Namespace resourceLog;
     o_Name := o_Name resourceLog;
     o_Resource := o_Resource resourceLog;
     o_ManifestProvenanceInfo := o_ManifestProvenanceInfo resourceLog ++ [mprovinfo] |}.

(** The body of the outer loop. *)
Definition visitProvenance (resourceLog : ObservationResourceResult) (pr : Provenance)
  : ObservationResourceResult :=
  if negb (String.eqb (p_ArtifactType pr) ArtifactManifestImage) then resourceLog
  else if negb (Nat.eqb (length (AttestationMaterials pr)) 0)
       then fold_left (appendProvenanceInfo pr) (AttestationMaterials pr) resourceLog
       else resourceLog.

Definition GetProvenanceFromVerifyResourceResult (res : VerifyResult)
  : ObservationResourceResult :=
  let resourceLog := {| o_Kind := GroupVersionKind_Kind (v_Resource res);
                        o_Namespace := GetNamespace (v_Resource res);
                        o_Name := GetName (v_Resource res);
                        o_Resource := v_Resource res;
                        o_ManifestProvenanceInfo := [] |} in
  if Nat.eqb (length (Provenances res)) 0 then resourceLog
  else fold_left visitProvenance (Provenances res) resourceLog.

End Extractor.

(** ** Lookup in the previous cycle's results *)

Definition zeroUnstructured : Unstructured :=
  {| GetAPIVersion := ""; GetKind := ""; GetName := ""; GetNamespace := ""; Object := "" |}.

(** [FinalObservationResourceResult{}] *)
Definition zeroFinalObservationResourceResult : FinalObservationResourceResult :=
  {| f_Kind := ""; f_Namespace := ""; f_Name := ""; f_Resource := zeroUnstructured;
     f_ManifestProvenanceResults := [] |}.

(** [ManifestProvenanceResult{}] *)
Definition zeroManifestProvenanceResult : ManifestProvenanceResult :=
  {| r_GitRepo := ""; r_GitApiURL := ""; r_CommitID := ""; r_CommitDate := "";
     r_Author := ""; r_Files := []; r_Hash := ""; r_Artifact := "" |}.

Fixpoint getTargetResourceLog (res : ObservationResourceResult)
    (lastResults : list FinalObservationResourceResult)
  : bool * FinalObservationResourceResult :=
  match lastResults with
  | [] => (false, zeroFinalObservationResourceResult)
  | lres :: rest =>
      if String.eqb (f_Kind lres) (o_Kind res)
         && String.eqb (f_Namespace lres) (o_Namespace res)
         && String.eqb (f_Name lres) (o_Name res)
      then (true, lres)
      else getTargetResourceLog res rest
  end.

Fixpoint getTargetProvenanceLog (new : ManifestProvenanceInfo)
    (lastProvs : list ManifestProvenanceResult)
  : bool * ManifestProvenanceResult :=
  match lastProvs with
  | [] => (false, zeroManifestProvenanceResult)
  | prov :: rest =>
      if String.eqb (r_GitRepo prov) (i_GitRepo new) then (true, prov)
      else getTargetProvenanceLog new rest
  end.

(** ** Manifest location

    Pulling and unpacking the image, YAML coding and the two searches
    belong to the manifest verification library and to the YAML library;
    they are parameters here.  A failed call ([err != nil]) and a nil byte
    slice are [None].  The log lines of [getManifestYaml] are left out. *)

(** What [yaml.Unmarshal(manifest, &mnfObj)] leaves in a nil
    [*unstructured.Unstructured]: an error, no error and the pointer still
    nil (a document that is null, as one that holds comments only), or an
    object. *)
Inductive Decoded :=
| DecodeError
| DecodedNil
| DecodedObject (mnfObj : Unstructured).

Section Locator.

Variable Image : Type.
Variable PullImage : string -> option Image.
Variable GenerateConcatYAMLsFromImage : Image -> option string.
Variable yaml_Marshal : Unstructured -> option string.
Variable yaml_Unmarshal : string -> Decoded.
Variable SplitConcatYAMLs : string -> list string.
Variable ConcatenateYAMLs : list string -> option string.
Variable ManifestSearchByGVKNameNamespace :
  string -> string -> string -> string -> string -> bool * option string.
Variable ManifestSearchByContent : string -> string -> bool * option string.

(** The loop that keeps the manifests of the object's kind, with the
    slice it has built so far. *)
Fixpoint keepKindMatched (kind : string) (yamls kindMatchedYAMLs : list string)
  : Outcome (list string) :=
  match yamls with
  | [] => Done kindMatchedYAMLs
  | manifest :: rest =>
      match yaml_Unmarshal manifest with
      | DecodeError => keepKindMatched kind rest kindMatchedYAMLs
      | DecodedNil =>
          (* [mnfObj.GetKind()] on the nil object *)
          Panicked NilDereference
      | DecodedObject mnfObj =>
          let mnfKind := GetKind mnfObj in
          if String.eqb kind mnfKind
          then keepKindMatched kind rest (kindMatchedYAMLs ++ [manifest])
          else keepKindMatched kind rest kindMatchedYAMLs
      end
  end.

Definition kindMatchedYAMLs (kind : string) (yamls : list string)
  : Outcome (list string) :=
  keepKindMatched kind yamls [].

Definition getManifestYaml (imageRef : string) (obj : Unstructured)
  : Outcome (bool * option string) :=
  match PullImage imageRef with
  | None => Done (false, None)
  | Some image =>
  match GenerateConcatYAMLsFromImage image with
  | None => Done (false, None)
  | Some concatYAMLbytes =>
  match yaml_Marshal obj with
  | None => Done (false, None)
  | Some objBytes =>
      let apiVersion := GetAPIVersion obj in
      let kind := GetKind obj in
      let name := GetName obj in
      let namespace := GetNamespace obj in
      let yamls := SplitConcatYAMLs concatYAMLbytes in
      match kindMatchedYAMLs kind yamls with
      | Panicked p => Panicked p
      | Done kindMatchedYAMLs =>
      if Nat.eqb (length kindMatchedYAMLs) 0 then Done (false, None)
      else
        match ConcatenateYAMLs kindMatchedYAMLs with
        | None => Done (false, None)
        | Some candidateManifestBytes =>
            let '(found, foundBytes) :=
              ManifestSearchByGVKNameNamespace candidateManifestBytes
                apiVersion kind name namespace in
            if found then Done (found, foundBytes)
            else
              let '(found, foundBytes) :=
                ManifestSearchByContent candidateManifestBytes objBytes in
              if found then Done (found, foundBytes)
              else Done (false, None)
        end
      end
  end end end.

End Locator.

(** ** Declarative readings used to state the properties *)

(** [sub] occurs in [s] at byte offset [i]. *)
Definition occursAt (sub s : string) (i : nat) : Prop :=
  exists p t, s = p +:+ sub +:+ t /\ String.length p = i.

(** [r] is [s] with its leftmost occurrence of [old] replaced by [new];
    [r] is [s] itself when [old] does not occur. *)
Definition firstReplaced (old new s r : string) : Prop :=
  ((forall i, ~ occursAt old s i) /\ r = s)
  \/ (exists p t, s = p +:+ old +:+ t
                 /\ (forall i, i < String.length p -> ~ occursAt old s i)
                 /\ r = p +:+ new +:+ t).

(** The URL derivation as the specification words it: a trailing [.git]
    becomes [/commits]. *)
Definition replaceTrailing (s suffix new : string) : string :=
  if strings.HasSuffix s suffix
  then strings.upto (String.length s - String.length suffix) s +:+ new
  else s.

(** The host segment of a URI [scheme://host/path] is the text between
    [://] and the next [/]; it is replaced when it equals [host]. *)
Definition replaceHost (s host new : string) : string :=
  match strings.Index s "://" with
  | None => s
  | Some j =>
      let rest := strings.from (j + 3) s in
      let k := match strings.Index rest "/" with
               | Some k => k
               | None => String.length rest
               end in
      if String.eqb (strings.upto k rest) host
      then strings.upto (j + 3) s +:+ new +:+ strings.from k rest
      else s
  end.

Definition specCommitDetailURL (uri commit : string) : string :=
  replaceHost (replaceTrailing uri ".git" "/commits") "github.com" "api.github.com/repos"
  +:+ "/" +:+ commit.

(** The statements whose artifact type is manifest image, and the
    provenance record of one (statement, material) pair. *)
Definition isManifestImage (ArtifactManifestImage : string) (pr : Provenance) : bool :=
  String.eqb (p_ArtifactType pr) ArtifactManifestImage.

Definition provenanceInfoOf (pr : Provenance) (am : ProvenanceMaterial)
  : ManifestProvenanceInfo :=
  {| i_Artifact := p_Artifact pr;
     i_CommitID := getCommitID (Digest am);
     i_GitApiURL := convertToCommitDetailURL (URI am) (getCommitID (Digest am));
     i_Hash := p_Hash pr;
     i_GitRepo := URI am |}.

(** A computation whose only effect is to write [events] to the log, and
    whose outcome [o] does not depend on the world it runs in. *)
Definition logsOnly {A : Type} (c : M A) (o : Outcome A) (events : list Event) : Prop :=
  forall w, c w = (o, appendLog w events).

Definition quiet {A : Type} (c : M A) : Prop :=
  exists o events, logsOnly c o events.

(** A previous entry and a new result agree on kind, namespace and name. *)
Definition sameIdentity (lres : FinalObservationResourceResult)
    (res : ObservationResourceResult) : Prop :=
  f_Kind lres = o_Kind res /\ f_Namespace lres = o_Namespace res
  /\ f_Name lres = o_Name res.

(** The kind filter as a predicate on manifests. *)
Definition kindMatches (yaml_Unmarshal : string -> Decoded)
    (kind manifest : string) : bool :=
  match yaml_Unmarshal manifest with
  | DecodedObject mnfObj => String.eqb kind (GetKind mnfObj)
  | _ => false
  end.

(** A manifest that decodes to the nil object without an error. *)
Definition decodesToNil (yaml_Unmarshal : string -> Decoded) (manifest : string) : bool :=
  match yaml_Unmarshal manifest with
  | DecodedNil => true
  | _ => false
  end.

(** A manifest decodes to an object with the identity of [obj]. *)
Definition identityMatches (yaml_Unmarshal : string -> Decoded)
    (obj : Unstructured) (manifest : string) : Prop :=
  exists mnfObj, yaml_Unmarshal manifest = DecodedObject mnfObj
    /\ GetAPIVersion mnfObj = GetAPIVersion obj
    /\ GetKind mnfObj = GetKind obj
    /\ GetName mnfObj = GetName obj
    /\ GetNamespace mnfObj = GetNamespace obj.



(** ** A reference JSON reader

    The resolver is stated over every decoder.  To run it on concrete
    response bodies this module reads the JSON grammar (without [\u]
    escapes in string literals) into [value]s the way [encoding/json]
    fills an [interface{}]: objects become maps in which a later
    duplicate key wins, numbers keep their lexeme, and a number too large
    for a [float64] is reported and read as nil. *)

Module Json.

Local Open Scope char_scope.

Definition dquote : ascii := "034".
Definition backslash : ascii := "092".

Definition isSpace (c : ascii) : bool :=
  Ascii.eqb c " " || Ascii.eqb c "009" || Ascii.eqb c "010" || Ascii.eqb c "013".

Definition isDigit (c : ascii) : bool :=
  Nat.leb 48 (nat_of_ascii c) && Nat.leb (nat_of_ascii c) 57.

Fixpoint skipSpace (s : list ascii) : list ascii :=
  match s with
  | c :: r => if isSpace c then skipSpace r else s
  | [] => []
  end.

Fixpoint digits (s : list ascii) : list ascii * list ascii :=
  match s with
  | c :: r => if isDigit c then let '(d, r') := digits r in (c :: d, r') else ([], s)
  | [] => ([], [])
  end.

Fixpoint stripPrefix (lit s : list ascii) : option (list ascii) :=
  match lit, s with
  | [], _ => Some s
  | a :: lit', b :: s' => if Ascii.eqb a b then stripPrefix lit' s' else None
  | _ :: _, [] => None
  end.

Definition unescape (e : ascii) : option ascii :=
  if Ascii.eqb e dquote then Some dquote
  else if Ascii.eqb e backslash then Some backslash
  else if Ascii.eqb e "/" then Some "/"
  else if Ascii.eqb e "b" then Some "008"
  else if Ascii.eqb e "f" then Some "012"
  else if Ascii.eqb e "n" then Some "010"
  else if Ascii.eqb e "r" then Some "013"
  else if Ascii.eqb e "t" then Some "009"
  else None.

(** A string literal after its opening quote. *)
Fixpoint stringBody (s acc : list ascii) : option (string * list ascii) :=
  match s with
  | [] => None
  | c :: r =>
      if Ascii.eqb c dquote then Some (string_of_list_ascii acc, r)
      else if Ascii.eqb c backslash then
        match r with
        | e :: r' =>
            match unescape e with
            | Some x => stringBody r' (acc ++ [x])
            | None => None
            end
        | [] => None
        end
      else if Nat.ltb (nat_of_ascii c) 32 then None
      else stringBody r (acc ++ [c])
  end.

Definition optionalPart (s : list ascii) (marks : list ascii) (signed : bool)
  : option (list ascii * list ascii) :=
  match s with
  | c :: r =>
      if existsb (Ascii.eqb c) marks then
        let '(sign, r1) :=
          match r with
          | x :: r' => if signed && (Ascii.eqb x "+" || Ascii.eqb x "-")
                       then ([x], r') else ([], r)
          | [] => ([], r)
          end in
        match digits r1 with
        | ([], _) => None
        | (d, r2) => Some (c :: sign ++ d, r2)
        end
      else Some ([], s)
  | [] => Some ([], s)
  end.

(** Whether a number of the JSON grammar is too large for a [float64]:
    its magnitude rounds to infinity, that is, it reaches
    [2^1024 - 2^970].  [int] and [frac] are the digits before and after
    the point, [exp] the exponent part with its mark and sign. *)
Definition digitsValue (ds : list ascii) : Z :=
  fold_left (fun acc c => (acc * 10 + Z.of_nat (nat_of_ascii c - 48))%Z) ds 0%Z.

Fixpoint dropZeros (ds : list ascii) : list ascii :=
  match ds with
  | c :: r => if Ascii.eqb c "0" then dropZeros r else ds
  | [] => []
  end.

Definition exponentValue (exp : list ascii) : Z :=
  match exp with
  | _ :: x :: r =>
      let '(negative, ds) :=
        if Ascii.eqb x "-" then (true, r)
        else if Ascii.eqb x "+" then (false, r) else (false, x :: r) in
      let magnitude :=
        if Nat.ltb 6 (length (dropZeros ds)) then 1000000%Z else digitsValue ds in
      if negative then (- magnitude)%Z else magnitude
  | _ => 0%Z
  end.

Definition overflows (int frac exp : list ascii) : bool :=
  let mantissa := digitsValue (int ++ frac) in
  let e10 := (exponentValue exp - Z.of_nat (length frac))%Z in
  let order := (Z.of_nat (length (dropZeros (int ++ frac))) + e10)%Z in
  let limit := (2 ^ 1024 - 2 ^ 970)%Z in
  if (mantissa =? 0)%Z then false
  else if (310 <? order)%Z then true
  else if (order <? 300)%Z then false
  else if (0 <=? e10)%Z then (limit <=? mantissa * 10 ^ e10)%Z
  else (limit * 10 ^ (- e10) <=? mantissa)%Z.

Definition number (s : list ascii) : option (string * bool * list ascii) :=
  let '(sign, s1) := match s with
                     | c :: r => if Ascii.eqb c "-" then ([c], r) else ([], s)
                     | [] => ([], s)
                     end in
  match digits s1 with
  | ([], _) => None
  | (d, s2) =>
      match d with
      | z :: _ :: _ => if Ascii.eqb z "0" then None else Some tt
      | _ => Some tt
      end ≫= fun _ =>
      '(frac, s3) ← optionalPart s2 ["."] false;
      '(exp, s4) ← optionalPart s3 ["e"; "E"] true;
      Some (string_of_list_ascii (sign ++ d ++ frac ++ exp),
            overflows d (tail frac) exp, s4)
  end.

(** The first error is the one that is kept. *)
Definition numberError (err : option string) (lexeme : string) : option string :=
  match err with
  | Some e => Some e
  | None =>
      Some ("json: cannot unmarshal number " +:+ lexeme
            +:+ " into Go value of type float64")%string
  end.

Fixpoint parseValue (fuel : nat) (s : list ascii) (err : option string)
  : option (value * list ascii * option string) :=
  match fuel with
  | O => None
  | S fuel =>
      let s := skipSpace s in
      match s with
      | [] => None
      | c :: r =>
          if Ascii.eqb c dquote then
            '(lit, r') ← stringBody r []; Some (Str lit, r', err)
          else if Ascii.eqb c "[" then
            match skipSpace r with
            | x :: r' => if Ascii.eqb x "]" then Some (Slice [], r', err)
                         else parseElements fuel r [] err
            | [] => None
            end
          else if Ascii.eqb c "{" then
            match skipSpace r with
            | x :: r' => if Ascii.eqb x "}" then Some (Map ∅, r', err)
                         else parseMembers fuel r ∅ err
            | [] => None
            end
          else
            match stripPrefix ["n"; "u"; "l"; "l"] s with
            | Some r' => Some (Nil, r', err)
            | None =>
            match stripPrefix ["t"; "r"; "u"; "e"] s with
            | Some r' => Some (Bool true, r', err)
            | None =>
            match stripPrefix ["f"; "a"; "l"; "s"; "e"] s with
            | Some r' => Some (Bool false, r', err)
            | None =>
                '(lex, tooLarge, r') ← number s;
                if tooLarge : bool then Some (Nil, r', numberError err lex)
                else Some (Float64 lex, r', err)
            end end end
      end
  end
with parseElements (fuel : nat) (s : list ascii) (acc : list value) (err : option string)
  : option (value * list ascii * option string) :=
  match fuel with
  | O => None
  | S fuel =>
      '(v, r, err) ← parseValue fuel s err;
      match skipSpace r with
      | x :: r' =>
          if Ascii.eqb x "," then parseElements fuel r' (acc ++ [v]) err
          else if Ascii.eqb x "]" then Some (Slice (acc ++ [v]), r', err)
          else None
      | [] => None
      end
  end
with parseMembers (fuel : nat) (s : list ascii) (acc : gmap string value)
    (err : option string)
  : option (value * list ascii * option string) :=
  match fuel with
  | O => None
  | S fuel =>
      match skipSpace s with
      | q :: r =>
          if Ascii.eqb q dquote then
            '(key, r1) ← stringBody r [];
            match skipSpace r1 with
            | colon :: r2 =>
                if Ascii.eqb colon ":" then
                  '(v, r3, err) ← parseValue fuel r2 err;
                  match skipSpace r3 with
                  | x :: r4 =>
                      if Ascii.eqb x "," then parseMembers fuel r4 (<[key := v]> acc) err
                      else if Ascii.eqb x "}"
                           then Some (Map (<[key := v]> acc), r4, err)
                           else None
                  | [] => None
                  end
                else None
            | [] => None
            end
          else None
      | [] => None
      end
  end.

Definition decode (body : string) : string + (value * option string) :=
  let s := list_ascii_of_string body in
  match parseValue (2 * length s + 2) s None with
  | Some (v, r, err) =>
      match skipSpace r with
      | [] => inr (v, err)
      | _ :: _ => inl "invalid character after top-level value"%string
      end
  | None => inl "invalid character or unexpected end of JSON input"%string
  end.

(** JSON texts are written with ['] where the double quote stands. *)
Definition text (s : string) : string :=
  string_of_list_ascii
    (map (fun c => if Ascii.eqb c "'" then dquote else c) (list_ascii_of_string s)).

End Json.

(** ** A concrete setting

    One repository, one commit, and a remote service that serves the
    commit detail of that commit; every other request is answered with the
    service's error document. *)

Module Demo.

Definition repoURL : string := "https://github.com/acme/app.git".
Definition commitID : string := "abc123".
Definition detailURL : string := "https://api.github.com/repos/acme/app/commits/abc123".

Definition commitDetail : string := Json.text
  "{'sha':'abc123','commit':{'author':{'name':'Dev','email':'dev@example.com','date':'2021-08-13T08:34:59Z'},'message':'update'},'parents':[],'files':[{'filename':'deploy/app.yaml','status':'modified'},{'filename':'README.md','status':'modified'}]}".

(** The same commit detail without its [files] array. *)
Definition commitDetailNoFiles : string := Json.text
  "{'sha':'abc123','commit':{'author':{'name':'Dev','email':'dev@example.com','date':'2021-08-13T08:34:59Z'},'message':'update'},'parents':[]}".

(** The commit detail with a number that no [float64] holds. *)
Definition commitDetailLargeNumber : string := Json.text
  "{'sha':'abc123','commit':{'author':{'email':'dev@example.com','date':'2021-08-13T08:34:59Z'}},'stats':{'total':1e400},'files':[{'filename':'deploy/app.yaml'}]}".

Definition notFound : string := Json.text "{'message':'Not Found'}".

Definition malformed : string := "<html>502 Bad Gateway</html>".

(** [net/url] refuses control characters; nothing else is refused here. *)
Definition url_Parse (url : string) : bool :=
  forallb (fun c => Nat.leb 32 (nat_of_ascii c) && negb (Nat.eqb (nat_of_ascii c) 127))
          (list_ascii_of_string url).

Definition serving (body : string) : list Request -> Request -> Response :=
  fun _ req => if String.eqb (URL req) detailURL then Served body None
               else Served notFound None.

Definition unreachable : list Request -> Request -> Response :=
  fun _ _ => TransportError "dial tcp: connection refused".

(** A service that redirects without end: the client gives up and hands
    back the last response, its body closed, together with its error. *)
Definition redirecting : list Request -> Request -> Response :=
  fun _ _ => ResponseWithError "stopped after 10 redirects" ""
               (Some "http: read on closed response body").

Definition world (service : list Request -> Request -> Response) : World :=
  {| environ := {[ "GIT_TOKEN" := "s3cr3t" ]};
     remote := service;
     wire := [];
     logged := [] |}.

Definition prov : ManifestProvenanceInfo :=
  {| i_Artifact := "registry.example.com/acme/app-manifest:v1";
     i_CommitID := commitID;
     i_GitApiURL := detailURL;
     i_Hash := "sha256:0f3c";
     i_GitRepo := repoURL |}.

Definition resolve : ManifestProvenanceInfo -> M ManifestProvenanceResult :=
  setNewManifestProvenanceResult url_Parse Json.decode.

Definition resolved : ManifestProvenanceResult :=
  {| r_GitRepo := repoURL;
     r_GitApiURL := detailURL;
     r_CommitID := commitID;
     r_CommitDate := "2021-08-13T08:34:59Z";
     r_Author := "dev@example.com";
     r_Files := ["deploy/app.yaml"; "README.md"];
     r_Hash := "sha256:0f3c";
     r_Artifact := "registry.example.com/acme/app-manifest:v1" |}.

(** What [encoding/json] reads from a body; the nil map for a body that is
    not a JSON object. *)
Definition decoded (body : string) : gmap string value :=
  match Json.decode body with
  | inr (Map m, _) => m
  | _ => ∅
  end.

(** The world before any resolution, after one and after two. *)
Definition w0 : World := world (serving commitDetail).
Definition w1 : World := snd (resolve prov w0).
Definition w2 : World := snd (resolve prov w1).

End Demo.

(** ** A concrete bundle

    Manifests are written as JSON documents (every JSON document is a YAML
    document), joined by a line [---].  The identity search returns the
    first document with the wanted apiVersion, kind, name and namespace;
    the content search stands for a matcher that accepts the first
    candidate it is given. *)

Module Bundle.

Definition nl : string := String "010"%char "".
Definition separator : string := nl +:+ "---" +:+ nl.

Fixpoint splitOn (fuel : nat) (sep s : string) : list string :=
  match fuel with
  | O => [s]
  | S fuel =>
      match strings.Index s sep with
      | None => [s]
      | Some j => strings.upto j s :: splitOn fuel sep (strings.from (j + String.length sep) s)
      end
  end.

Definition SplitConcatYAMLs (concat : string) : list string :=
  List.filter (fun doc => negb (String.eqb doc ""))
              (splitOn (String.length concat) separator concat).

Definition ConcatenateYAMLs (yamls : list string) : option string :=
  Some (String.concat separator yamls).

Definition stringAt (m : gmap string value) (key : string) : string :=
  match at_key m key with
  | Str s => s
  | _ => ""
  end.

Definition yaml_Unmarshal (manifest : string) : Decoded :=
  match Json.decode manifest with
  | inr (Map m, _) =>
      let metadata := match at_key m "metadata" with Map md => md | _ => ∅ end in
      if String.eqb (stringAt m "kind") "" then DecodeError
      else DecodedObject {| GetAPIVersion := stringAt m "apiVersion";
                            GetKind := stringAt m "kind";
                            GetName := stringAt metadata "name";
                            GetNamespace := stringAt metadata "namespace";
                            Object := manifest |}
  | inr (Nil, _) => DecodedNil
  | _ => DecodeError
  end.

Definition yaml_Marshal (obj : Unstructured) : option string := Some (Object obj).

(** The group of an apiVersion: the text before its [/], empty for the
    core group. *)
Definition groupOf (apiVersion : string) : string :=
  match strings.Index apiVersion "/" with
  | Some j => strings.upto j apiVersion
  | None => ""
  end.

Definition hasGroupIdentity (apiVersion kind name namespace : string) (manifest : string)
  : bool :=
  match yaml_Unmarshal manifest with
  | DecodedObject mnfObj =>
      String.eqb (groupOf (GetAPIVersion mnfObj)) (groupOf apiVersion)
      && String.eqb (GetKind mnfObj) kind
      && String.eqb (GetName mnfObj) name && String.eqb (GetNamespace mnfObj) namespace
  | _ => false
  end.

(** The identity search, lenient on the version as the library's is: it
    compares the group of the apiVersion, the kind, the name and the
    namespace, and returns the first document that agrees on them. *)
Definition ManifestSearchByGVKNameNamespace
    (concat apiVersion kind name namespace : string) : bool * option string :=
  match List.find (hasGroupIdentity apiVersion kind name namespace)
                  (SplitConcatYAMLs concat) with
  | Some manifest => (true, Some manifest)
  | None => (false, None)
  end.

Definition ManifestSearchByContent (concat objBytes : string) : bool * option string :=
  match SplitConcatYAMLs concat with
  | manifest :: _ => (true, Some manifest)
  | [] => (false, None)
  end.

Definition deploymentOf (apiVersion name : string) : string := Json.text
  ("{'apiVersion':'" +:+ apiVersion +:+ "','kind':'Deployment','metadata':{'name':'"
   +:+ name +:+ "','namespace':'default'},'spec':{'replicas':1}}").

Definition deployment (name : string) : string := deploymentOf "apps/v1" name.

(** A document that is null. *)
Definition null : string := "null".

Definition service : string := Json.text
  "{'apiVersion':'v1','kind':'Service','metadata':{'name':'web','namespace':'default'}}".

Definition imageRef : string := "registry.example.com/acme/app-manifest:v1".
Definition otherRef : string := "registry.example.com/acme/svc-manifest:v1".
Definition emptyRef : string := "registry.example.com/acme/empty:v1".
Definition versionsRef : string := "registry.example.com/acme/app-manifest:v2".
Definition nullRef : string := "registry.example.com/acme/svc-manifest:v2".
Definition nullWebRef : string := "registry.example.com/acme/app-manifest:v3".

(** The images: [api] and [web] deployments with a service; a service
    alone; an empty bundle; the [web] deployment at two versions of its
    API group; a service with a null document; the [web] deployment with a
    null document. *)
Definition bundleOf (ref : string) : option (list string) :=
  if String.eqb ref imageRef then Some [deployment "api"; service; deployment "web"]
  else if String.eqb ref otherRef then Some [service]
  else if String.eqb ref emptyRef then Some []
  else if String.eqb ref versionsRef
       then Some [deploymentOf "apps/v1beta1" "web"; deploymentOf "apps/v1" "web"]
  else if String.eqb ref nullRef then Some [service; null]
  else if String.eqb ref nullWebRef then Some [deployment "web"; null]
  else None.

Definition PullImage (ref : string) : option string :=
  match bundleOf ref with
  | Some documents => Some (String.concat separator documents)
  | None => None
  end.

Definition GenerateConcatYAMLsFromImage (image : string) : option string := Some image.

(** The live resource: the [web] deployment, with a replica count that
    differs from the manifest's. *)
Definition web : Unstructured :=
  {| GetAPIVersion := "apps/v1"; GetKind := "Deployment"; GetName := "web";
     GetNamespace := "default";
     Object := Json.text "{'apiVersion':'apps/v1','kind':'Deployment','metadata':{'name':'web','namespace':'default'},'spec':{'replicas':3}}" |}.

Definition locate : string -> Unstructured -> Outcome (bool * option string) :=
  getManifestYaml string PullImage GenerateConcatYAMLsFromImage yaml_Marshal
    yaml_Unmarshal SplitConcatYAMLs ConcatenateYAMLs
    ManifestSearchByGVKNameNamespace ManifestSearchByContent.

(** The documents of an image that decode to a deployment. *)
Definition candidatesOf (ref : string) : list string :=
  match PullImage ref with
  | Some concat =>
      List.filter (kindMatches yaml_Unmarshal "Deployment") (SplitConcatYAMLs concat)
  | None => []
  end.

Definition candidates : list string := candidatesOf imageRef.

End Bundle.

(** ** A concrete verification result

    One statement of a manifest image that attests the same material
    twice, and one statement of another artifact type. *)

Module Attested.

Definition manifestImage : string := "manifestImage".

Definition material : ProvenanceMaterial :=
  {| URI := Demo.repoURL; Digest := {[ "commit" := Demo.commitID ]} |}.

Definition unpinned : ProvenanceMaterial :=
  {| URI := Demo.repoURL; Digest := {[ "sha256" := "0f3c" ]} |}.

Definition imageStatement : Provenance :=
  {| p_Artifact := "registry.example.com/acme/app-manifest:v1";
     p_ArtifactType := manifestImage;
     p_Hash := "sha256:0f3c";
     AttestationMaterials := [material; material] |}.

Definition resourceStatement : Provenance :=
  {| p_Artifact := "deployment/web";
     p_ArtifactType := "manifestResource";
     p_Hash := "sha256:77aa";
     AttestationMaterials := [material; unpinned] |}.

Definition verifyResult : VerifyResult :=
  {| v_Resource := Bundle.web;
     Provenances := [resourceStatement; imageStatement] |}.

(** A statement list without any manifest image. *)
Definition resourcesOnly : VerifyResult :=
  {| v_Resource := Bundle.web;
     Provenances := [resourceStatement; resourceStatement] |}.

(** A resource whose apiVersion is no group and version, without any
    statement. *)
Definition malformed : VerifyResult :=
  {| v_Resource := {| GetAPIVersion := "apps/v1/beta"; GetKind := "Deployment";
                      GetName := "web"; GetNamespace := "default"; Object := "" |};
     Provenances := [] |}.

(** The same repository at a later commit. *)
Definition laterInfo : ManifestProvenanceInfo :=
  {| i_Artifact := i_Artifact Demo.prov;
     i_CommitID := "def456";
     i_GitApiURL := convertToCommitDetailURL Demo.repoURL "def456";
     i_Hash := i_Hash Demo.prov;
     i_GitRepo := Demo.repoURL |}.

Definition previous : list FinalObservationResourceResult :=
  [ {| f_Kind := "Deployment"; f_Namespace := "default"; f_Name := "api";
       f_Resource := zeroUnstructured; f_ManifestProvenanceResults := [] |};
    {| f_Kind := "Deployment"; f_Namespace := "default"; f_Name := "web";
       f_Resource := Bundle.web; f_ManifestProvenanceResults := [Demo.resolved] |} ].

End Attested.

(** ** Parents of a commit, and the commits of an attestation *)

Record Parent := {
  pa_Commit : string;
  pa_URL : string
}.

Section History.

Variable url_Parse : string -> bool.
Variable json_decode : string -> string + (value * option string).

(** [json.Unmarshal([]byte(attestation), &statement)] into a nil
    [*in_toto.Statement], a struct of the in-toto library: the error if
    any, and the [Predicate] of the statement afterwards; [None] is the
    statement pointer left nil (a syntax error, the JSON [null]). *)
Variable decodeStatement : string -> option string * option value.

(** The body of the loop of [getParentsFromDetail]. *)
Definition parentOf (parent : value) : M Parent :=
  pm ← assertMap parent;
  url ← assertString (at_key pm "url");
  pm ← assertMap parent;
  sha ← assertString (at_key pm "sha");
  mret {| pa_Commit := sha; pa_URL := url |}.

Fixpoint parentsOf (parents : list value) (result : list Parent) : M (list Parent) :=
  match parents with
  | [] => mret result
  | parent :: rest =>
      p ← parentOf parent;
      parentsOf rest (result ++ [p])
  end.

Definition getParentsFromDetail (body : string) : M (list Parent) :=
  let '(err, data) := json_Unmarshal json_decode body in
  match err with
  | Some e => emit (fmt_Println ("Failed to unmarshal git data; err:  " +:+ e))
  | None => mret tt
  end;;
  parents ← assertSlice (at_key data "parents");
  parentsOf parents [].

(** The body of the loop of [getCommitInfo]: the assertions in the order
    the statements make them, then the fetch and the parse. *)
Definition commitOf (token : string) (m : value) : M CommitData :=
  mm ← assertMap m;
  let uri := at_key mm "uri" in
  mm ← assertMap m;
  let digest := at_key mm "digest" in
  dm ← assertMap digest;
  let commit := at_key dm "commit" in
  commitStr ← assertString commit;
  uriStr ← assertString uri;
  let url := convertToCommitDetailURL uriStr commitStr in
  data ← accessGitRepo url_Parse url token;
  getCommitInfoFromDetail json_decode data commitStr.

Fixpoint commitsOf (token : string) (materialsArray : list value) (res : list CommitData)
  : M (list CommitData) :=
  match materialsArray with
  | [] => mret res
  | m :: rest =>
      cmtd ← commitOf token m;
      commitsOf token rest (res ++ [cmtd])
  end.

Definition getCommitInfo (attestation : string) : M (list CommitData) :=
  token ← os_Getenv "GIT_TOKEN";
  let '(err, statement) := decodeStatement attestation in
  match err with
  | Some e => emit (fmt_Println ("Failed to unmarshal attestation; err:  " +:+ e))
  | None => mret tt
  end;;
  match statement with
  | None =>
      (* [statement.Predicate] on the nil statement *)
      panic NilDereference
  | Some predicate =>
      pm ← assertMap predicate;
      let materials := pm !! "materials" in
      match materials with
      | None => emit (fmt_Println "Failed to get materials from predicate")
      | Some _ => mret tt
      end;;
      (* [materials.([]interface{})] in its two-result form *)
      match materials with
      | Some (Slice materialsArray) => commitsOf token materialsArray []
      | _ =>
          emit (fmt_Println "Failed to convert into materialsArray");;
          commitsOf token [] []
      end
  end.

End History.

(** ** Shapes of the documents the parsers accept *)

(** An entry of [files] with a string [filename]. *)
Definition fileShape (file : value) (name : string) : Prop :=
  exists f, file = Map f /\ at_key f "filename" = Str name.

(** A commit detail: [commit.author.date] a string, [commit.author.email]
    a string or missing (or null), and [files] an array of file entries. *)
Definition detailShape (data : gmap string value) (author date : string)
    (names : list string) : Prop :=
  exists c a files,
    at_key data "commit" = Map c
    /\ at_key c "author" = Map a
    /\ ((at_key a "email" = Nil /\ author = "") \/ at_key a "email" = Str author)
    /\ at_key a "date" = Str date
    /\ at_key data "files" = Slice files
    /\ Forall2 fileShape files names.

(** An entry of [parents] with string [url] and [sha]. *)
Definition parentShape (parent : value) (p : Parent) : Prop :=
  exists pm, parent = Map pm
    /\ at_key pm "url" = Str (pa_URL p) /\ at_key pm "sha" = Str (pa_Commit p).

(** A material of an attestation with a string [uri] and a string
    [digest.commit]. *)
Definition materialShape (m : value) (uri commit : string) : Prop :=
  exists mm dm, m = Map mm
    /\ at_key mm "uri" = Str uri
    /\ at_key mm "digest" = Map dm
    /\ at_key dm "commit" = Str commit.

(** A computation without any effect, whose outcome does not depend on
    the world it runs in. *)
Definition silent {A : Type} (c : M A) : Prop := exists o, logsOnly c o [].

(** The line [json.Unmarshal]'s error is reported with, if there is one. *)
Definition unmarshalReport (err : option string) : list Event :=
  match err with
  | Some e => [fmt_Println ("Failed to unmarshal git data; err:  " +:+ e)]
  | None => []
  end.

(** The bytes [accessGitRepo] gets out of a response, if it gets any, and
    the lines it logs on the way. *)
Definition responseBody (res : Response) : option string :=
  match res with
  | TransportError _ => None
  | Served body _ => Some body
  | ResponseWithError _ body _ => Some body
  end.

Definition responseLog (res : Response) : list Event :=
  match res with
  | TransportError err => [log_Error ("Error reported from GitHub API" +:+ err)]
  | Served _ None => []
  | Served _ (Some err) => [log_Error ("Error: fail to read body: " +:+ err)]
  | ResponseWithError err _ None =>
      [log_Error ("Error reported from GitHub API" +:+ err)]
  | ResponseWithError err _ (Some readErr) =>
      [log_Error ("Error reported from GitHub API" +:+ err);
       log_Error ("Error: fail to read body: " +:+ readErr)]
  end.

(** The world after [client.Get(url)] was answered with [res]. *)
Definition afterGet (w : World) (url : string) (res : Response) : World :=
  appendLog (appendWire w (plainGet url)) (responseLog res).

(** The materials of a predicate as [getCommitInfo] walks them: the
    (uri, commit) pairs of the [materials] array, and none when there is
    no such array. *)
Definition materialsOf (pm : gmap string value) (mats : list (string * string)) : Prop :=
  match pm !! "materials" with
  | Some (Slice ms) => Forall2 (fun m uc => materialShape m (fst uc) (snd uc)) ms mats
  | _ => mats = []
  end.

(** The GET for the commit detail of a (uri, commit) pair. *)
Definition fetchOf (uc : string * string) : Request :=
  plainGet (convertToCommitDetailURL (fst uc) (snd uc)).

(** Two worlds that differ in the environment at most. *)
Definition sameButEnviron (w w' : World) : Prop :=
  remote w = remote w' /\ wire w = wire w' /\ logged w = logged w'.

(** ** A concrete attestation *)

Module Attestation.

(** A reading of the statement decoder for JSON texts whose header fields
    are well typed and whose predicate is under the key [predicate]. *)
Definition decodeStatement (attestation : string) : option string * option value :=
  match Json.decode attestation with
  | inl e => (Some e, None)
  | inr (Nil, _) => (None, None)
  | inr (Map m, numberErr) => (numberErr, Some (at_key m "predicate"))
  | inr (v, _) =>
      (Some ("json: cannot unmarshal " +:+ jsonKind v
             +:+ " into Go value of type in_toto.Statement"), Some Nil)
  end.

Definition statement : string := Json.text
  "{'_type':'https://in-toto.io/Statement/v0.1','predicateType':'https://slsa.dev/provenance/v0.1','subject':[{'name':'registry.example.com/acme/app-manifest','digest':{'sha256':'0f3c'}}],'predicate':{'builder':{'id':'https://ci.example.com'},'materials':[{'uri':'https://github.com/acme/app.git','digest':{'commit':'abc123','revision':'main'}}]}}".

(** The same statement without materials in its predicate. *)
Definition bare : string := Json.text
  "{'_type':'https://in-toto.io/Statement/v0.1','predicateType':'https://slsa.dev/provenance/v0.1','subject':[],'predicate':{'builder':{'id':'https://ci.example.com'}}}".

Definition predicateOf (attestation : string) : gmap string value :=
  match snd (decodeStatement attestation) with
  | Some (Map pm) => pm
  | _ => ∅
  end.

Definition getCommitInfo : string -> M (list CommitData) :=
  getCommitInfo Demo.url_Parse Json.decode decodeStatement.

(** The world of [Demo] with another token in the environment. *)
Definition otherToken : World :=
  {| environ := {[ "GIT_TOKEN" := "0ther" ]};
     remote := remote Demo.w0; wire := wire Demo.w0; logged := logged Demo.w0 |}.

End Attestation.

(** ** Logger set-up of the request handler (package [config]) *)

Module config.












End config.

(** * Properties *)

(** ** Strings *)

Section StringFacts.

Local Open Scope nat_scope.
Local Arguments String.append : simpl nomatch.

Lemma length_append (a b : string) :
  String.length (a +:+ b) = String.length a + String.length b.
Proof. induction a as [|c a IH]; simpl; [reflexivity | now rewrite IH]. Qed.

Lemma append_assoc (a b c : string) : (a +:+ b) +:+ c = a +:+ b +:+ c.
Proof. induction a as [|x a IH]; simpl; [reflexivity | now rewrite IH]. Qed.

Lemma append_inj_length (p1 p2 x y : string) :
  p1 +:+ x = p2 +:+ y -> String.length p1 = String.length p2 -> p1 = p2 /\ x = y.
Proof.
  revert p2. induction p1 as [|c p1 IH]; intros [|d p2]; simpl; intros E L;
    try discriminate.
  - now split.
  - injection E as -> E. injection L as L.
    destruct (IH _ E L) as [-> ->]. now split.
Qed.

Lemma substring_prefix_append (x t : string) :
  String.substring 0 (String.length x) (x +:+ t) = x.
Proof. induction x as [|c x IH]; simpl; [now destruct t | now rewrite IH]. Qed.

Lemma substring_skip_append (p s : string) (n : nat) :
  String.substring (String.length p) n (p +:+ s) = String.substring 0 n s.
Proof. induction p as [|c p IH]; simpl; [reflexivity | exact IH]. Qed.

(** An occurrence in the sense of [occursAt] is what [String.index]
    looks for. *)
Lemma occursAt_substring (sub s : string) (i : nat) :
  occursAt sub s i -> String.substring i (String.length sub) s = sub.
Proof.
  intros (p & t & -> & <-).
  rewrite substring_skip_append. apply substring_prefix_append.
Qed.

Lemma substring_all (s : string) : String.substring 0 (String.length s) s = s.
Proof. induction s as [|c s IH]; simpl; [reflexivity | now rewrite IH]. Qed.

Lemma substring_cut (s : string) (n : nat) :
  n <= String.length s ->
  s = String.substring 0 n s +:+ String.substring n (String.length s - n) s.
Proof.
  revert n. induction s as [|c s IH]; intros [|n] Hle; simpl in *; try lia.
  - reflexivity.
  - now rewrite substring_all.
  - f_equal. apply IH. lia.
Qed.

Lemma substring_split (s : string) (m n : nat) :
  m + n <= String.length s ->
  s = String.substring 0 m s +:+ String.substring m n s
      +:+ String.substring (m + n) (String.length s - (m + n)) s.
Proof.
  revert m. induction s as [|c s IH]; intros m Hle; simpl in Hle.
  - assert (m = 0) by lia. assert (n = 0) by lia. subst. reflexivity.
  - destruct m as [|m].
    + change (0 + n) with n. change (String.substring 0 0 (String c s)) with "".
      change ("" +:+ ?x) with x. apply substring_cut. simpl. lia.
    + simpl. f_equal. apply IH. lia.
Qed.

Lemma length_substring (s : string) (m n : nat) :
  m + n <= String.length s -> String.length (String.substring m n s) = n.
Proof.
  revert m n. induction s as [|c s IH]; intros [|m] [|n] Hle; simpl in *;
    try lia; try reflexivity.
  - f_equal. apply (IH 0 n). lia.
  - apply (IH m 0). lia.
  - apply (IH m (S n)). lia.
Qed.

Lemma substring_within (s x : string) (m : nat) :
  x <> "" -> String.substring m (String.length x) s = x ->
  m + String.length x <= String.length s.
Proof.
  revert m x. induction s as [|c s IH]; intros m x Hx E.
  - destruct m, x; simpl in E; congruence.
  - destruct m as [|m].
    + destruct x as [|d x]; [congruence|]. simpl in *.
      injection E as _ E. destruct x as [|e x]; [simpl; lia|].
      specialize (IH 0 (String e x) ltac:(discriminate) E). simpl in *. lia.
    + simpl in E. specialize (IH m x Hx E). simpl. lia.
Qed.

End StringFacts.

Section ReplaceFacts.

Local Open Scope nat_scope.
Local Arguments String.append : simpl nomatch.

Lemma Index_Some (s sub : string) (j : nat) :
  sub <> "" -> strings.Index s sub = Some j ->
  s = strings.upto j s +:+ sub +:+ strings.from (j + String.length sub) s
  /\ String.length (strings.upto j s) = j
  /\ (forall i, i < j -> ~ occursAt sub s i).
Proof.
  unfold strings.Index, strings.upto, strings.from. intros Hne Hidx.
  pose proof (String.index_correct1 _ _ _ _ Hidx) as Hat.
  pose proof (substring_within _ _ _ Hne Hat) as Hin.
  split; [|split].
  - pose proof (substring_split s j (String.length sub) Hin) as Hs.
    rewrite Hat in Hs. exact Hs.
  - apply (length_substring s 0 j). lia.
  - intros i Hi Hocc. apply occursAt_substring in Hocc.
    exact (String.index_correct2 _ _ _ _ Hidx i (Nat.le_0_l i) Hi Hocc).
Qed.

Lemma Index_None (s sub : string) :
  sub <> "" -> strings.Index s sub = None -> forall i, ~ occursAt sub s i.
Proof.
  unfold strings.Index. intros Hne Hidx i Hocc.
  apply occursAt_substring in Hocc.
  exact (String.index_correct3 _ i _ _ Hidx Hne (Nat.le_0_l i) Hocc).
Qed.

(** [strings.Replace] with count 1 replaces the leftmost occurrence. *)
Lemma Replace_once (s old new : string) :
  old <> "" -> firstReplaced old new s (strings.Replace s old new 1).
Proof.
  intros Hne. unfold strings.Replace.
  destruct (strings.Index s old) as [j|] eqn:Hidx.
  - destruct (Index_Some _ _ _ Hne Hidx) as (Hs & Hlen & Hfirst).
    right. exists (strings.upto j s), (strings.from (j + String.length old) s).
    split; [exact Hs|]. split; [now rewrite Hlen|].
    destruct (String.eqb_spec old new) as [<-|_]; [exact Hs | reflexivity].
  - left. split; [now apply Index_None|].
    now destruct (String.eqb old new).
Qed.

(** The leftmost replacement is unique. *)
Lemma firstReplaced_unique (old new s r1 r2 : string) :
  firstReplaced old new s r1 -> firstReplaced old new s r2 -> r1 = r2.
Proof.
  intros [[N1 ->]|(p1 & t1 & E1 & F1 & ->)] [[N2 ->]|(p2 & t2 & E2 & F2 & ->)].
  - reflexivity.
  - exfalso. apply (N1 (String.length p2)). now exists p2, t2.
  - exfalso. apply (N2 (String.length p1)). now exists p1, t1.
  - assert (String.length p1 = String.length p2) as Hl.
    { destruct (Nat.lt_trichotomy (String.length p1) (String.length p2))
        as [Hlt|[Heq|Hgt]]; [|exact Heq|].
      - exfalso. apply (F2 _ Hlt). now exists p1, t1.
      - exfalso. apply (F1 _ Hgt). now exists p2, t2. }
    rewrite E1 in E2.
    destruct (append_inj_length _ _ _ _ E2 Hl) as [-> E3].
    destruct (append_inj_length old old t1 t2 E3 eq_refl) as [_ ->].
    reflexivity.
Qed.

End ReplaceFacts.

(** ** URL derivation *)

(** What the two calls of [strings.Replace] compute: the URI with its
    leftmost [.git] replaced by [/commits], then the leftmost
    [github.com] of the result replaced by [api.github.com/repos], then
    [/] and the commit appended; a URI without the respective text is
    left as it is.  The repository [https://github.com/acme/app.git] at
    commit [abc123] gives
    [https://api.github.com/repos/acme/app/commits/abc123]. *)
Theorem convertToCommitDetailURL_leftmost :
  (forall uri commit url : string,
      convertToCommitDetailURL uri commit = url
      <-> exists r1 r2,
            firstReplaced ".git" "/commits" uri r1
            /\ firstReplaced "github.com" "api.github.com/repos" r1 r2
            /\ url = r2 +:+ "/" +:+ commit)
  /\ convertToCommitDetailURL "https://github.com/acme/app.git" "abc123"
     = "https://api.github.com/repos/acme/app/commits/abc123".
Proof.
  split; [|vm_compute; reflexivity].
  intros uri commit url. unfold convertToCommitDetailURL.
  set (r1 := strings.Replace uri ".git" "/commits" 1).
  set (r2 := strings.Replace r1 "github.com" "api.github.com/repos" 1).
  assert (firstReplaced ".git" "/commits" uri r1) as H1
    by (apply Replace_once; discriminate).
  assert (firstReplaced "github.com" "api.github.com/repos" r1 r2) as H2
    by (apply Replace_once; discriminate).
  split.
  - intros <-. exists r1, r2. auto.
  - intros (r1' & r2' & H1' & H2' & ->).
    pose proof (firstReplaced_unique _ _ _ _ _ H1 H1') as <-.
    pose proof (firstReplaced_unique _ _ _ _ _ H2 H2') as <-.
    reflexivity.
Qed.

(** C5: for a repository whose name contains [.git] before the end the
    derived URL is not the one of the claim, nor of the form the comment
    in the code gives for such a URI: the code rewrites the first [.git],
    not the trailing one. *)
Lemma convertToCommitDetailURL_not_trailing :
  convertToCommitDetailURL "https://github.com/acme/acme.github.io.git" "abc123"
    = "https://api.github.com/repos/acme/acme/commitshub.io.git/abc123"
  /\ specCommitDetailURL "https://github.com/acme/acme.github.io.git" "abc123"
    = "https://api.github.com/repos/acme/acme.github.io/commits/abc123"
  /\ convertToCommitDetailURL "https://github.com/acme/acme.github.io.git" "abc123"
     <> specCommitDetailURL "https://github.com/acme/acme.github.io.git" "abc123".
Proof.
  split; [vm_compute; reflexivity|]. split; [vm_compute; reflexivity|].
  vm_compute. discriminate.
Qed.

(** On the repository of the specification's example the two readings
    agree. *)
Example specCommitDetailURL_example :
  specCommitDetailURL "https://github.com/acme/app.git" "abc123"
  = convertToCommitDetailURL "https://github.com/acme/app.git" "abc123".
Proof. vm_compute. reflexivity. Qed.

(** C10: the commit-detail URL is the commit-history URL of the same URI
    followed by [/] and the commit. *)
Theorem convertToCommitDetailURL_extends_history :
  forall uri commit : string,
    convertToCommitDetailURL uri commit
    = convertToCommitHistoryURL uri commit +:+ "/" +:+ commit.
Proof.
  intros uri commit. unfold convertToCommitDetailURL, convertToCommitHistoryURL.
  reflexivity.
Qed.

(** ** The world monad *)

Lemma appendLog_nil (w : World) : appendLog w [] = w.
Proof. destruct w. unfold appendLog. simpl. now rewrite app_nil_r. Qed.

Lemma appendLog_app (w : World) (e1 e2 : list Event) :
  appendLog (appendLog w e1) e2 = appendLog w (e1 ++ e2).
Proof. unfold appendLog. simpl. now rewrite app_assoc. Qed.

(** Runs the monadic plumbing of a goal as far as the data allows. *)
Ltac run_M :=
  cbv [mbind mret M_bind M_ret panic assertMap assertString assertSlice].

Lemma bind_run {A B : Type} (c : M A) (k : A -> M B) (w : World) :
  (c ≫= k) w = match c w with
               | (Done a, w') => k a w'
               | (Panicked p, w') => (Panicked p, w')
               end.
Proof. reflexivity. Qed.

Lemma logsOnly_ret {A : Type} (a : A) : logsOnly (mret a) (Done a) [].
Proof. intros w. now rewrite appendLog_nil. Qed.

Lemma logsOnly_panic {A : Type} (p : Panic) : logsOnly (@panic A p) (Panicked p) [].
Proof. intros w. now rewrite appendLog_nil. Qed.

Lemma logsOnly_emit (e : Event) : logsOnly (emit e) (Done tt) [e].
Proof. intros w. reflexivity. Qed.

Lemma logsOnly_bind {A B : Type} (c : M A) (k : A -> M B) a o ev1 ev2 :
  logsOnly c (Done a) ev1 -> logsOnly (k a) o ev2 -> logsOnly (c ≫= k) o (ev1 ++ ev2).
Proof.
  intros Hc Hk w. rewrite bind_run, Hc, Hk. now rewrite appendLog_app.
Qed.

Lemma logsOnly_bind_panicked {A B : Type} (c : M A) (k : A -> M B) p ev :
  logsOnly c (Panicked p) ev -> logsOnly (c ≫= k) (Panicked p) ev.
Proof. intros Hc w. now rewrite bind_run, Hc. Qed.

Lemma quiet_ret {A : Type} (a : A) : quiet (mret a : M A).
Proof. eexists _, _. apply logsOnly_ret. Qed.

Lemma quiet_panic {A : Type} (p : Panic) : quiet (@panic A p).
Proof. eexists _, _. apply logsOnly_panic. Qed.

Lemma quiet_emit (e : Event) : quiet (emit e).
Proof. eexists _, _. apply logsOnly_emit. Qed.

Lemma quiet_bind {A B : Type} (c : M A) (k : A -> M B) :
  quiet c -> (forall a, quiet (k a)) -> quiet (c ≫= k).
Proof.
  intros ([a|p] & ev1 & Hc) Hk.
  - destruct (Hk a) as (o & ev2 & Hka). eexists _, _. eapply logsOnly_bind; eauto.
  - eexists _, _. eapply logsOnly_bind_panicked; eauto.
Qed.

Lemma quiet_assertMap (v : value) : quiet (assertMap v).
Proof. destruct v; simpl; auto using quiet_ret, quiet_panic. Qed.

Lemma quiet_assertString (v : value) : quiet (assertString v).
Proof. destruct v; simpl; auto using quiet_ret, quiet_panic. Qed.

Lemma quiet_assertSlice (v : value) : quiet (assertSlice v).
Proof. destruct v; simpl; auto using quiet_ret, quiet_panic. Qed.

Create HintDb quiet.

#[local] Hint Resolve quiet_ret quiet_panic quiet_emit quiet_assertMap
  quiet_assertString quiet_assertSlice : quiet.

Lemma quiet_fileName (file : value) : quiet (fileName file).
Proof. unfold fileName. apply quiet_bind; auto with quiet. Qed.

Lemma quiet_fileNamesOf (files : list value) (fileNames : list string) :
  quiet (fileNamesOf files fileNames).
Proof.
  revert fileNames. induction files as [|file rest IH]; intros fileNames; simpl.
  - auto with quiet.
  - apply quiet_bind; [apply quiet_fileName | auto].
Qed.

Section ResolverFacts.

Variable url_Parse : string -> bool.
Variable json_decode : string -> string + (value * option string).

Lemma quiet_getCommitInfoFromDetail (body cmtid : string) :
  quiet (getCommitInfoFromDetail json_decode body cmtid).
Proof.
  unfold getCommitInfoFromDetail.
  destruct (json_Unmarshal json_decode body) as [err data].
  repeat first
    [ apply quiet_bind; [|intros ?]
    | apply quiet_fileNamesOf
    | progress auto with quiet
    | match goal with |- quiet (match ?x with _ => _ end) => destruct x end ].
Qed.

(** What [accessGitRepo] does, case by case. *)
Lemma accessGitRepo_run (url token : string) (w : World) :
  accessGitRepo url_Parse url token w =
  if url_Parse url then
    match remote w (wire w) (plainGet url) with
    | TransportError err =>
        (Panicked NilDereference,
         appendLog (appendWire w (plainGet url))
           [log_Error ("Error reported from GitHub API" +:+ err)])
    | Served body None => (Done body, appendWire w (plainGet url))
    | Served body (Some err) =>
        (Done body,
         appendLog (appendWire w (plainGet url))
           [log_Error ("Error: fail to read body: " +:+ err)])
    | ResponseWithError err body None =>
        (Done body,
         appendLog (appendWire w (plainGet url))
           [log_Error ("Error reported from GitHub API" +:+ err)])
    | ResponseWithError err body (Some readErr) =>
        (Done body,
         appendLog (appendWire w (plainGet url))
           [log_Error ("Error reported from GitHub API" +:+ err);
            log_Error ("Error: fail to read body: " +:+ readErr)])
    end
  else (Panicked NilDereference, w).
Proof.
  unfold accessGitRepo, http_NewRequest.
  destruct (url_Parse url); [|reflexivity].
  rewrite bind_run. unfold client_Get.
  destruct (remote w (wire w) (plainGet url))
    as [err|body [err|]|err body [readErr|]];
    try reflexivity.
  unfold emit. run_M. now rewrite appendLog_app.
Qed.

(** A resolution that returns has sent one GET for the commit-detail URL
    and has left the rest of the world as it was; its result is read off
    the body that the remote service served. *)
Lemma accessGitRepo_done (url token body : string) (w w' : World) :
  accessGitRepo url_Parse url token w = (Done body, w')
  <-> url_Parse url = true
      /\ responseBody (remote w (wire w) (plainGet url)) = Some body
      /\ w' = afterGet w url (remote w (wire w) (plainGet url)).
Proof.
  rewrite accessGitRepo_run. unfold afterGet. split.
  - destruct (url_Parse url); [|discriminate].
    destruct (remote w (wire w) (plainGet url)) as [err|b [err|]|err b [readErr|]];
      try discriminate; intros [= <- <-]; simpl; rewrite ?appendLog_nil; auto.
  - intros (-> & Hbody & ->).
    destruct (remote w (wire w) (plainGet url)) as [err|b [err|]|err b [readErr|]];
      simpl in *; try discriminate; injection Hbody as ->;
      rewrite ?appendLog_nil; reflexivity.
Qed.

Lemma setNewManifestProvenanceResult_done (prov : ManifestProvenanceInfo)
    (w w' : World) (r : ManifestProvenanceResult) :
  setNewManifestProvenanceResult url_Parse json_decode prov w = (Done r, w') ->
  exists body cmtd events,
    responseBody (remote w (wire w) (plainGet (i_GitApiURL prov))) = Some body
    /\ logsOnly (getCommitInfoFromDetail json_decode body (i_CommitID prov))
                (Done cmtd) events
    /\ r = {| r_GitRepo := i_GitRepo prov; r_GitApiURL := i_GitApiURL prov;
              r_CommitID := i_CommitID prov; r_CommitDate := Date cmtd;
              r_Author := Author cmtd; r_Files := Files cmtd;
              r_Hash := i_Hash prov; r_Artifact := i_Artifact prov |}
    /\ wire w' = wire w ++ [plainGet (i_GitApiURL prov)]
    /\ remote w' = remote w
    /\ environ w' = environ w.
Proof.
  unfold setNewManifestProvenanceResult. rewrite bind_run. unfold os_Getenv.
  rewrite bind_run.
  destruct (accessGitRepo _ _ _ w) as [[body|p] w1] eqn:Hget; [|discriminate].
  apply accessGitRepo_done in Hget as (_ & Hbody & ->).
  destruct (quiet_getCommitInfoFromDetail body (i_CommitID prov))
    as (o & events & Hq).
  rewrite bind_run, Hq. destruct o as [cmtd|p]; [|discriminate].
  intros [= <- <-]. exists body, cmtd, events. repeat split; assumption.
Qed.

End ResolverFacts.

(** ** Commit resolution *)

(** C1 (as amended): the resolver keeps no cache.  Every resolution that
    returns has sent one GET for the info's commit-detail URL, so resolving
    the same (repoURL, commitID) twice sends that GET twice; the second
    result equals the first whenever the remote service answers the second
    GET as it answered the first. *)
Theorem setNewManifestProvenanceResult_fetches_every_time :
  forall (url_Parse : string -> bool) (json_decode : string -> string + (value * option string))
         (prov : ManifestProvenanceInfo) (w w1 w2 : World)
         (r1 r2 : ManifestProvenanceResult),
    setNewManifestProvenanceResult url_Parse json_decode prov w = (Done r1, w1) ->
    setNewManifestProvenanceResult url_Parse json_decode prov w1 = (Done r2, w2) ->
    wire w2 = wire w ++ [plainGet (i_GitApiURL prov); plainGet (i_GitApiURL prov)]
    /\ (remote w (wire w ++ [plainGet (i_GitApiURL prov)]) (plainGet (i_GitApiURL prov))
        = remote w (wire w) (plainGet (i_GitApiURL prov)) -> r2 = r1).
Proof.
  intros url_Parse json_decode prov w w1 w2 r1 r2 H1 H2.
  apply setNewManifestProvenanceResult_done in H1
    as (b1 & c1 & ev1 & Hr1 & Hc1 & -> & Hw1 & Hrem1 & _).
  apply setNewManifestProvenanceResult_done in H2
    as (b2 & c2 & ev2 & Hr2 & Hc2 & -> & Hw2 & _ & _).
  rewrite Hw1 in Hw2, Hr2. rewrite Hrem1 in Hr2. split.
  - rewrite Hw2, <- app_assoc. reflexivity.
  - intros Hsame. rewrite Hsame, Hr1 in Hr2. injection Hr2 as <-.
    pose proof (Hc1 w) as E1. rewrite (Hc2 w) in E1.
    injection E1 as -> _. reflexivity.
Qed.

(** The two resolutions of the concrete setting. *)
Lemma setNewManifestProvenanceResult_fetches_every_time_witness :
  wire Demo.w2 = wire Demo.w0 ++ [plainGet Demo.detailURL; plainGet Demo.detailURL]
  /\ fst (Demo.resolve Demo.prov Demo.w1) = Done Demo.resolved.
Proof.
  assert (Demo.resolve Demo.prov Demo.w0 = (Done Demo.resolved, Demo.w1)) as H1
    by (vm_compute; reflexivity).
  assert (Demo.resolve Demo.prov Demo.w1 = (Done Demo.resolved, Demo.w2)) as H2
    by (vm_compute; reflexivity).
  destruct (setNewManifestProvenanceResult_fetches_every_time
              Demo.url_Parse Json.decode Demo.prov Demo.w0 Demo.w1 Demo.w2
              Demo.resolved Demo.resolved H1 H2) as [Hwire _].
  split; [exact Hwire | now rewrite H2].
Defined.

(** C1 (as stated) fails: with the commit detail already resolved once,
    resolving the same (repoURL, commitID) again puts a second GET for the
    same URL on the wire. *)
Lemma second_resolution_fetches_again :
  Demo.resolve Demo.prov Demo.w0 = (Done Demo.resolved, Demo.w1)
  /\ wire Demo.w1 = [plainGet Demo.detailURL]
  /\ Demo.resolve Demo.prov Demo.w1 = (Done Demo.resolved, Demo.w2)
  /\ wire Demo.w2 = [plainGet Demo.detailURL; plainGet Demo.detailURL]
  /\ wire Demo.w2 <> wire Demo.w1.
Proof.
  repeat split; try (vm_compute; reflexivity).
  vm_compute. discriminate.
Qed.

(** C4: what reaches the wire.  [accessGitRepo] sends at most one request,
    the GET of [client.Get], whose header is empty whatever the token is:
    the request that carries [Authorization: Bearer <token>] is built and
    never sent. *)
Theorem accessGitRepo_sends_no_bearer :
  forall (url_Parse : string -> bool) (url token : string) (w : World),
    (wire (snd (accessGitRepo url_Parse url token w)) = wire w
     \/ wire (snd (accessGitRepo url_Parse url token w)) = wire w ++ [plainGet url])
    /\ Header (plainGet url) = [].
Proof.
  intros url_Parse url token w. split; [|reflexivity].
  rewrite accessGitRepo_run.
  destruct (url_Parse url); [|now left].
  destruct (remote w (wire w) (plainGet url))
    as [err|body [err|]|err body [readErr|]];
    now right.
Qed.

(** C4 at a concrete input: with [GIT_TOKEN] set, the one request of a
    resolution is sent without any header. *)
Lemma token_never_sent :
  default "" (environ Demo.w0 !! "GIT_TOKEN") = "s3cr3t"
  /\ wire Demo.w1 = [{| Method := "GET"; URL := Demo.detailURL; Header := [] |}].
Proof. split; vm_compute; reflexivity. Qed.

(** C2: a response body that is valid JSON and has no [files] array (it
    is no object, or it is an object in which [files] is missing or is not
    an array) makes [getCommitInfoFromDetail] panic, whatever else it
    holds. *)
Theorem getCommitInfoFromDetail_missing_files_panics :
  forall (json_decode : string -> string + (value * option string)) (body cmtid : string)
         (v : value) (numberErr : option string) (w : World),
    json_decode body = inr (v, numberErr) ->
    (forall data l, v = Map data -> data !! "files" <> Some (Slice l)) ->
    exists p w', getCommitInfoFromDetail json_decode body cmtid w = (Panicked p, w').
Proof.
  intros json_decode body cmtid v numberErr w Hdec Hfiles.
  unfold getCommitInfoFromDetail, json_Unmarshal. rewrite Hdec.
  destruct v as [|b|lexeme|s|l|data];
    try (destruct numberErr; eexists _, _; reflexivity).
  assert (forall l, at_key data "files" <> Slice l) as Hno.
  { intros l Hl. apply (Hfiles data l eq_refl). unfold at_key in Hl.
    destruct (data !! "files") as [x|]; simpl in Hl; congruence. }
  unfold emit.
  destruct numberErr as [e|]; run_M;
    (destruct (at_key data "commit") as [| | | | |c]; run_M;
     [eexists _, _; reflexivity .. |]);
    (destruct (at_key c "author") as [| | | | |a]; run_M;
     [eexists _, _; reflexivity .. |]);
    destruct (at_key a "email"), (at_key a "date"); run_M;
    try (eexists _, _; reflexivity);
    (destruct (at_key data "files") as [| | | | l |]; run_M;
     [eexists _, _; reflexivity .. | exfalso; exact (Hno l eq_refl)
     | eexists _, _; reflexivity]).
Qed.

(** The commit detail of the concrete setting, without its [files]. *)
Lemma getCommitInfoFromDetail_missing_files_panics_witness :
  exists p w', getCommitInfoFromDetail Json.decode Demo.commitDetailNoFiles "abc123" Demo.w0
               = (Panicked p, w').
Proof.
  apply (getCommitInfoFromDetail_missing_files_panics Json.decode
           Demo.commitDetailNoFiles "abc123"
           (Map (Demo.decoded Demo.commitDetailNoFiles)) None Demo.w0).
  - vm_compute. reflexivity.
  - intros data l [= <-]. vm_compute. discriminate.
Defined.

(** C2 at a concrete input: the panic is the failed type assertion
    [data["files"].([]interface{})] on a nil interface value; with the
    [files] array in place the same response resolves. *)
Lemma missing_files_interface_conversion :
  fst (getCommitInfoFromDetail Json.decode Demo.commitDetailNoFiles "abc123" Demo.w0)
  = Panicked (InterfaceConversion "nil" "[]interface {}")
  /\ fst (getCommitInfoFromDetail Json.decode Demo.commitDetail "abc123" Demo.w0)
     = Done {| Commit := "abc123"; Date := "2021-08-13T08:34:59Z";
               Author := "dev@example.com";
               Files := ["deploy/app.yaml"; "README.md"] |}.
Proof. split; vm_compute; reflexivity. Qed.

(** C3: a transport failure of the GET and a response body that is not
    JSON both end the resolution of the entry in a panic: the error is
    written to the log and the nil response, or the nil map, is used
    all the same. *)
Theorem setNewManifestProvenanceResult_failure_panics :
  forall (url_Parse : string -> bool) (json_decode : string -> string + (value * option string))
         (prov : ManifestProvenanceInfo) (w : World),
    match remote w (wire w) (plainGet (i_GitApiURL prov)) with
    | TransportError _ => True
    | Served body _ => exists err, json_decode body = inl err
    | ResponseWithError _ body _ => exists err, json_decode body = inl err
    end ->
    exists p w',
      setNewManifestProvenanceResult url_Parse json_decode prov w = (Panicked p, w').
Proof.
  intros url_Parse json_decode prov w Hfail.
  unfold setNewManifestProvenanceResult. rewrite bind_run. unfold os_Getenv.
  rewrite bind_run, accessGitRepo_run.
  destruct (url_Parse (i_GitApiURL prov)); [|eexists _, _; reflexivity].
  assert (forall body w0,
             (exists err, json_decode body = inl err) ->
             exists w',
               getCommitInfoFromDetail json_decode body (i_CommitID prov) w0
               = (Panicked (InterfaceConversion "nil" "map[string]interface {}"), w'))
    as Hpanic.
  { intros body w0 [err Hdec].
    unfold getCommitInfoFromDetail, json_Unmarshal. rewrite Hdec.
    eexists. reflexivity. }
  destruct (remote w (wire w) (plainGet (i_GitApiURL prov)))
    as [err|body [readErr|]|err body [readErr|]];
    [eexists _, _; reflexivity| | | |];
    rewrite bind_run;
    match goal with
    | |- context [getCommitInfoFromDetail _ _ _ ?w0] =>
        destruct (Hpanic body w0 Hfail) as [w' ->]
    end;
    eexists _, _; reflexivity.
Qed.

(** An unreachable service, and a service that answers with HTML. *)
Lemma setNewManifestProvenanceResult_failure_panics_witness :
  (exists p w', Demo.resolve Demo.prov (Demo.world Demo.unreachable) = (Panicked p, w'))
  /\ (exists p w', Demo.resolve Demo.prov (Demo.world (Demo.serving Demo.malformed))
                   = (Panicked p, w')).
Proof.
  split.
  - apply (setNewManifestProvenanceResult_failure_panics Demo.url_Parse Json.decode
             Demo.prov (Demo.world Demo.unreachable)).
    exact I.
  - apply (setNewManifestProvenanceResult_failure_panics Demo.url_Parse Json.decode
             Demo.prov (Demo.world (Demo.serving Demo.malformed))).
    eexists. vm_compute. reflexivity.
Defined.

(** C3 at concrete inputs: the outcome and the log of a resolution whose
    GET fails, and of one whose response body is not JSON. *)
Lemma failure_is_logged_then_panics :
  fst (Demo.resolve Demo.prov (Demo.world Demo.unreachable)) = Panicked NilDereference
  /\ logged (snd (Demo.resolve Demo.prov (Demo.world Demo.unreachable)))
     = [log_Error "Error reported from GitHub APIdial tcp: connection refused"]
  /\ fst (Demo.resolve Demo.prov (Demo.world (Demo.serving Demo.malformed)))
     = Panicked (InterfaceConversion "nil" "map[string]interface {}")
  /\ logged (snd (Demo.resolve Demo.prov (Demo.world (Demo.serving Demo.malformed))))
     = [fmt_Println ("Failed to unmarshal git data; err:  "
                     +:+ "invalid character or unexpected end of JSON input")].
Proof. repeat split; vm_compute; reflexivity. Qed.

(** ** Provenance extraction *)

Section ExtractorFacts.

Variable ArtifactManifestImage : string.

Lemma fold_appendProvenanceInfo (pr : Provenance) (ams : list ProvenanceMaterial)
    (resourceLog : ObservationResourceResult) :
  let out := fold_left (appendProvenanceInfo pr) ams resourceLog in
  o_ManifestProvenanceInfo out
  = o_ManifestProvenanceInfo resourceLog ++ map (provenanceInfoOf pr) ams
  /\ o_Kind out = o_Kind resourceLog
  /\ o_Namespace out = o_Namespace resourceLog
  /\ o_Name out = o_Name resourceLog.
Proof.
  revert resourceLog. induction ams as [|am ams IH]; intros resourceLog; simpl.
  - rewrite app_nil_r. auto.
  - destruct (IH (appendProvenanceInfo pr resourceLog am)) as (-> & -> & -> & ->).
    simpl. rewrite <- app_assoc. auto.
Qed.

Lemma visitProvenance_infos (resourceLog : ObservationResourceResult) (pr : Provenance) :
  let out := visitProvenance ArtifactManifestImage resourceLog pr in
  o_ManifestProvenanceInfo out
  = o_ManifestProvenanceInfo resourceLog
    ++ (if isManifestImage ArtifactManifestImage pr
        then map (provenanceInfoOf pr) (AttestationMaterials pr) else [])
  /\ o_Kind out = o_Kind resourceLog
  /\ o_Namespace out = o_Namespace resourceLog
  /\ o_Name out = o_Name resourceLog.
Proof.
  unfold visitProvenance, isManifestImage.
  destruct (String.eqb (p_ArtifactType pr) ArtifactManifestImage); simpl.
  - destruct (AttestationMaterials pr) as [|am ams] eqn:Hams.
    + simpl. rewrite app_nil_r. auto.
    + change (negb (Nat.eqb (length (am :: ams)) 0)) with true. cbv iota.
      apply fold_appendProvenanceInfo.
  - rewrite app_nil_r. auto.
Qed.

Lemma fold_visitProvenance (prs : list Provenance) (resourceLog : ObservationResourceResult) :
  let out := fold_left (visitProvenance ArtifactManifestImage) prs resourceLog in
  o_ManifestProvenanceInfo out
  = o_ManifestProvenanceInfo resourceLog
    ++ flat_map (fun pr => map (provenanceInfoOf pr) (AttestationMaterials pr))
                (List.filter (isManifestImage ArtifactManifestImage) prs)
  /\ o_Kind out = o_Kind resourceLog
  /\ o_Namespace out = o_Namespace resourceLog
  /\ o_Name out = o_Name resourceLog.
Proof.
  revert resourceLog. induction prs as [|pr prs IH]; intros resourceLog; simpl.
  - rewrite app_nil_r. auto.
  - destruct (IH (visitProvenance ArtifactManifestImage resourceLog pr))
      as (-> & -> & -> & ->).
    destruct (visitProvenance_infos resourceLog pr) as (-> & -> & -> & ->).
    destruct (isManifestImage ArtifactManifestImage pr); simpl.
    + rewrite <- app_assoc. auto.
    + rewrite app_nil_r. auto.
Qed.

End ExtractorFacts.

(** C8: the provenance records of a verification result are, in input
    order, one per (statement, attestation material) pair of the statements
    whose artifact type is manifest image, with repeated pairs kept; every
    other statement contributes nothing.  The resource log carries the
    kind of the resource's group-version-kind and the namespace and name
    of the resource. *)
Theorem GetProvenanceFromVerifyResourceResult_infos :
  forall (ArtifactManifestImage : string) (res : VerifyResult),
    o_ManifestProvenanceInfo (GetProvenanceFromVerifyResourceResult ArtifactManifestImage res)
    = flat_map (fun pr => map (provenanceInfoOf pr) (AttestationMaterials pr))
               (List.filter (isManifestImage ArtifactManifestImage) (Provenances res))
    /\ length (o_ManifestProvenanceInfo
                 (GetProvenanceFromVerifyResourceResult ArtifactManifestImage res))
       = list_sum (map (fun pr => length (AttestationMaterials pr))
                       (List.filter (isManifestImage ArtifactManifestImage) (Provenances res)))
    /\ o_Kind (GetProvenanceFromVerifyResourceResult ArtifactManifestImage res)
       = GroupVersionKind_Kind (v_Resource res)
    /\ o_Namespace (GetProvenanceFromVerifyResourceResult ArtifactManifestImage res)
       = GetNamespace (v_Resource res)
    /\ o_Name (GetProvenanceFromVerifyResourceResult ArtifactManifestImage res)
       = GetName (v_Resource res).
Proof.
  intros AMI res.
  assert (forall prs : list Provenance,
             length (flat_map (fun pr => map (provenanceInfoOf pr) (AttestationMaterials pr)) prs)
             = list_sum (map (fun pr => length (AttestationMaterials pr)) prs)) as Hlen.
  { induction prs as [|pr prs IH]; simpl; [reflexivity|].
    rewrite length_app, length_map, IH. reflexivity. }
  unfold GetProvenanceFromVerifyResourceResult.
  destruct (Provenances res) as [|pr prs] eqn:Hprs.
  - simpl. auto.
  - change (Nat.eqb (length (pr :: prs)) 0) with false. cbv iota.
    match goal with
    | |- context [fold_left _ _ ?log0] =>
        destruct (fold_visitProvenance AMI (pr :: prs) log0) as (-> & -> & -> & ->)
    end.
    simpl o_ManifestProvenanceInfo. rewrite app_nil_l.
    split; [reflexivity|]. split; [apply Hlen|]. auto.
Qed.

(** Two records for the material attested twice, none for the statement
    of another artifact type. *)
Example GetProvenanceFromVerifyResourceResult_example :
  o_ManifestProvenanceInfo
    (GetProvenanceFromVerifyResourceResult Attested.manifestImage Attested.verifyResult)
  = [Demo.prov; Demo.prov].
Proof. vm_compute. reflexivity. Qed.

(** A digest set without a [commit] key gives the empty commit. *)
Example getCommitID_absent : getCommitID (Digest Attested.unpinned) = "".
Proof. vm_compute. reflexivity. Qed.

(** ** Lookup in the previous cycle's results *)

Lemma sameIdentity_eqb (lres : FinalObservationResourceResult)
    (res : ObservationResourceResult) :
  String.eqb (f_Kind lres) (o_Kind res)
  && String.eqb (f_Namespace lres) (o_Namespace res)
  && String.eqb (f_Name lres) (o_Name res) = true
  <-> sameIdentity lres res.
Proof.
  unfold sameIdentity. rewrite !andb_true_iff, !String.eqb_eq. tauto.
Qed.

(** C9: [getTargetResourceLog] reports [true] exactly when some previous
    entry agrees with the new result on kind, namespace and name; it then
    returns the first such entry of the list, and otherwise [false] with
    the empty entry. *)
Theorem getTargetResourceLog_spec :
  forall (res : ObservationResourceResult)
         (lastResults : list FinalObservationResourceResult),
    (fst (getTargetResourceLog res lastResults) = true
     <-> exists lres, In lres lastResults /\ sameIdentity lres res)
    /\ (fst (getTargetResourceLog res lastResults) = true ->
        sameIdentity (snd (getTargetResourceLog res lastResults)) res
        /\ exists before after,
             lastResults = before ++ snd (getTargetResourceLog res lastResults) :: after
             /\ Forall (fun lres => ~ sameIdentity lres res) before)
    /\ (fst (getTargetResourceLog res lastResults) = false ->
        snd (getTargetResourceLog res lastResults) = zeroFinalObservationResourceResult).
Proof.
  intros res lastResults. induction lastResults as [|lres rest IH]; simpl.
  - split; [|split].
    + split; [discriminate | intros (l & [] & _)].
    + discriminate.
    + reflexivity.
  - destruct (String.eqb (f_Kind lres) (o_Kind res)
              && String.eqb (f_Namespace lres) (o_Namespace res)
              && String.eqb (f_Name lres) (o_Name res)) eqn:Hm.
    + apply sameIdentity_eqb in Hm. simpl. split; [|split].
      * split; [|reflexivity]. intros _. exists lres. auto.
      * intros _. split; [exact Hm|]. exists [], rest. split; [reflexivity | constructor].
      * discriminate.
    + assert (~ sameIdentity lres res) as Hno.
      { intros Hs. apply sameIdentity_eqb in Hs. congruence. }
      destruct IH as (IHiff & IHtrue & IHfalse). split; [|split].
      * rewrite IHiff. split.
        -- intros (l & Hin & Hs). exists l. auto.
        -- intros (l & [<-|Hin] & Hs); [contradiction | exists l; auto].
      * intros Ht. destruct (IHtrue Ht) as (Hs & before & after & Heq & Hall).
        split; [exact Hs|]. exists (lres :: before), after. split.
        -- simpl. now rewrite <- Heq.
        -- constructor; assumption.
      * exact IHfalse.
Qed.

Example getTargetResourceLog_example :
  getTargetResourceLog
    (GetProvenanceFromVerifyResourceResult Attested.manifestImage Attested.verifyResult)
    Attested.previous
  = (true, {| f_Kind := "Deployment"; f_Namespace := "default"; f_Name := "web";
              f_Resource := Bundle.web;
              f_ManifestProvenanceResults := [Demo.resolved] |}).
Proof. vm_compute. reflexivity. Qed.

(** ** Manifest location *)

Section LocatorFacts.

Variable Image : Type.
Variable PullImage : string -> option Image.
Variable GenerateConcatYAMLsFromImage : Image -> option string.
Variable yaml_Marshal : Unstructured -> option string.
Variable yaml_Unmarshal : string -> Decoded.
Variable SplitConcatYAMLs : string -> list string.
Variable ConcatenateYAMLs : list string -> option string.
Variable ManifestSearchByGVKNameNamespace :
  string -> string -> string -> string -> string -> bool * option string.
Variable ManifestSearchByContent : string -> string -> bool * option string.

(** The loop panics when a document decodes to the nil object; without
    such a document it keeps the documents of the wanted kind. *)
Lemma keepKindMatched_run (kind : string) (yamls acc : list string) :
  keepKindMatched yaml_Unmarshal kind yamls acc
  = if existsb (decodesToNil yaml_Unmarshal) yamls
    then Panicked NilDereference
    else Done (acc ++ List.filter (kindMatches yaml_Unmarshal kind) yamls).
Proof.
  revert acc. induction yamls as [|manifest yamls IH]; intros acc; simpl.
  - now rewrite app_nil_r.
  - unfold decodesToNil at 1, kindMatches at 1.
    destruct (yaml_Unmarshal manifest) as [| |mnfObj]; simpl.
    + apply IH.
    + reflexivity.
    + destruct (String.eqb kind (GetKind mnfObj)); rewrite IH.
      * destruct (existsb _ yamls); [reflexivity|]. now rewrite <- app_assoc.
      * reflexivity.
Qed.

Lemma kindMatchedYAMLs_run (kind : string) (yamls : list string) :
  kindMatchedYAMLs yaml_Unmarshal kind yamls
  = if existsb (decodesToNil yaml_Unmarshal) yamls
    then Panicked NilDereference
    else Done (List.filter (kindMatches yaml_Unmarshal kind) yamls).
Proof. unfold kindMatchedYAMLs. now rewrite keepKindMatched_run. Qed.

(** A document that decodes to the nil object stops [getManifestYaml]
    with a panic, once the image is pulled and unpacked and the object is
    marshalled. *)
Lemma getManifestYaml_nil_document (imageRef : string) (obj : Unstructured)
    (image : Image) (concatYAMLbytes objBytes : string) :
  PullImage imageRef = Some image ->
  GenerateConcatYAMLsFromImage image = Some concatYAMLbytes ->
  yaml_Marshal obj = Some objBytes ->
  existsb (decodesToNil yaml_Unmarshal) (SplitConcatYAMLs concatYAMLbytes) = true ->
  getManifestYaml Image PullImage GenerateConcatYAMLsFromImage yaml_Marshal
    yaml_Unmarshal SplitConcatYAMLs ConcatenateYAMLs
    ManifestSearchByGVKNameNamespace ManifestSearchByContent imageRef obj
  = Panicked NilDereference.
Proof.
  intros Hpull Hgen Hmar Hnil. unfold getManifestYaml.
  rewrite Hpull, Hgen, Hmar. cbv zeta.
  rewrite kindMatchedYAMLs_run, Hnil. reflexivity.
Qed.

(** Once the identity search reports a manifest, [getManifestYaml] returns
    it; the content search has no say. *)
Lemma getManifestYaml_identity_hit (imageRef : string) (obj : Unstructured)
    (image : Image) (concatYAMLbytes objBytes candidateManifestBytes : string)
    (foundBytes : option string) :
  PullImage imageRef = Some image ->
  GenerateConcatYAMLsFromImage image = Some concatYAMLbytes ->
  yaml_Marshal obj = Some objBytes ->
  existsb (decodesToNil yaml_Unmarshal) (SplitConcatYAMLs concatYAMLbytes) = false ->
  List.filter (kindMatches yaml_Unmarshal (GetKind obj))
              (SplitConcatYAMLs concatYAMLbytes) <> [] ->
  ConcatenateYAMLs
    (List.filter (kindMatches yaml_Unmarshal (GetKind obj))
                 (SplitConcatYAMLs concatYAMLbytes))
  = Some candidateManifestBytes ->
  ManifestSearchByGVKNameNamespace candidateManifestBytes (GetAPIVersion obj)
    (GetKind obj) (GetName obj) (GetNamespace obj) = (true, foundBytes) ->
  getManifestYaml Image PullImage GenerateConcatYAMLsFromImage yaml_Marshal
    yaml_Unmarshal SplitConcatYAMLs ConcatenateYAMLs
    ManifestSearchByGVKNameNamespace ManifestSearchByContent imageRef obj
  = Done (true, foundBytes).
Proof.
  intros Hpull Hgen Hmar Hnil Hne Hcat Hsearch. unfold getManifestYaml.
  rewrite Hpull, Hgen, Hmar. cbv zeta.
  rewrite kindMatchedYAMLs_run, Hnil.
  destruct (List.filter (kindMatches yaml_Unmarshal (GetKind obj))
              (SplitConcatYAMLs concatYAMLbytes)) as [|m ms] eqn:Hk; [congruence|].
  change (Nat.eqb (length (m :: ms)) 0) with false. cbv iota.
  rewrite Hcat, Hsearch. reflexivity.
Qed.

(** No document of the object's kind and none that decodes to the nil
    object: nothing is found. *)
Lemma getManifestYaml_no_candidate (imageRef : string) (obj : Unstructured)
    (image : Image) (concatYAMLbytes : string) :
  PullImage imageRef = Some image ->
  GenerateConcatYAMLsFromImage image = Some concatYAMLbytes ->
  existsb (decodesToNil yaml_Unmarshal) (SplitConcatYAMLs concatYAMLbytes) = false ->
  List.filter (kindMatches yaml_Unmarshal (GetKind obj))
              (SplitConcatYAMLs concatYAMLbytes) = [] ->
  getManifestYaml Image PullImage GenerateConcatYAMLsFromImage yaml_Marshal
    yaml_Unmarshal SplitConcatYAMLs ConcatenateYAMLs
    ManifestSearchByGVKNameNamespace ManifestSearchByContent imageRef obj
  = Done (false, None).
Proof.
  intros Hpull Hgen Hnil Hnone. unfold getManifestYaml.
  rewrite Hpull, Hgen.
  destruct (yaml_Marshal obj) as [objBytes|]; [|reflexivity].
  cbv zeta. rewrite kindMatchedYAMLs_run, Hnil, Hnone. reflexivity.
Qed.

End LocatorFacts.

(** C6: identity precedence.  Let the image be pulled and unpacked, the
    object marshalled, no document of the bundle decode to the nil object,
    and the candidates of the object's kind be concatenated.  When the
    identity search over the candidates reports a manifest,
    [getManifestYaml] reports found and returns that manifest, whatever the
    content search would return.  Which candidate that is, is the choice of
    the identity search alone: [getManifestYaml] compares no identity
    itself. *)
Theorem getManifestYaml_identity_precedence :
  forall (Image : Type) (PullImage : string -> option Image)
         (GenerateConcatYAMLsFromImage : Image -> option string)
         (yaml_Marshal : Unstructured -> option string)
         (yaml_Unmarshal : string -> Decoded)
         (SplitConcatYAMLs : string -> list string)
         (ConcatenateYAMLs : list string -> option string)
         (ManifestSearchByGVKNameNamespace :
            string -> string -> string -> string -> string -> bool * option string)
         (ManifestSearchByContent : string -> string -> bool * option string)
         (imageRef : string) (obj : Unstructured) (image : Image)
         (concatYAMLbytes objBytes candidateManifestBytes : string)
         (foundBytes : option string),
    PullImage imageRef = Some image ->
    GenerateConcatYAMLsFromImage image = Some concatYAMLbytes ->
    yaml_Marshal obj = Some objBytes ->
    existsb (decodesToNil yaml_Unmarshal) (SplitConcatYAMLs concatYAMLbytes) = false ->
    List.filter (kindMatches yaml_Unmarshal (GetKind obj))
                (SplitConcatYAMLs concatYAMLbytes) <> [] ->
    ConcatenateYAMLs
      (List.filter (kindMatches yaml_Unmarshal (GetKind obj))
                   (SplitConcatYAMLs concatYAMLbytes))
    = Some candidateManifestBytes ->
    ManifestSearchByGVKNameNamespace candidateManifestBytes (GetAPIVersion obj)
      (GetKind obj) (GetName obj) (GetNamespace obj) = (true, foundBytes) ->
    getManifestYaml Image PullImage GenerateConcatYAMLsFromImage yaml_Marshal
      yaml_Unmarshal SplitConcatYAMLs ConcatenateYAMLs
      ManifestSearchByGVKNameNamespace ManifestSearchByContent imageRef obj
    = Done (true, foundBytes).
Proof.
  intros Image PullImage Generate yaml_Marshal yaml_Unmarshal Split Concatenate
         SearchGVK SearchContent imageRef obj image concat objBytes cands foundBytes.
  apply getManifestYaml_identity_hit.
Qed.

(** The [web] deployment in the bundle of the concrete setting: the
    content search would return the [api] manifest, the first candidate,
    and [getManifestYaml] returns the [web] manifest. *)
Lemma getManifestYaml_identity_precedence_witness :
  Bundle.ManifestSearchByContent (String.concat Bundle.separator Bundle.candidates)
    (Object Bundle.web) = (true, Some (Bundle.deployment "api"))
  /\ Bundle.locate Bundle.imageRef Bundle.web = Done (true, Some (Bundle.deployment "web")).
Proof.
  split; [vm_compute; reflexivity|].
  apply (getManifestYaml_identity_precedence string
           Bundle.PullImage Bundle.GenerateConcatYAMLsFromImage Bundle.yaml_Marshal
           Bundle.yaml_Unmarshal Bundle.SplitConcatYAMLs Bundle.ConcatenateYAMLs
           Bundle.ManifestSearchByGVKNameNamespace Bundle.ManifestSearchByContent
           Bundle.imageRef Bundle.web
           (String.concat Bundle.separator
              [Bundle.deployment "api"; Bundle.service; Bundle.deployment "web"])
           (String.concat Bundle.separator
              [Bundle.deployment "api"; Bundle.service; Bundle.deployment "web"])
           (Object Bundle.web)
           (String.concat Bundle.separator Bundle.candidates)
           (Some (Bundle.deployment "web"))).
  - vm_compute. reflexivity.
  - reflexivity.
  - reflexivity.
  - vm_compute. reflexivity.
  - vm_compute. discriminate.
  - vm_compute. reflexivity.
  - vm_compute. reflexivity.
Defined.

(** C6 does not hold as worded.  The bundle holds the [web] deployment at
    [apps/v1beta1] and at [apps/v1]; the resource is the [web] deployment at
    [apps/v1].  The second candidate has exactly the identity of the
    resource, and [getManifestYaml] returns the first, which the identity
    search reports and whose apiVersion differs. *)
Lemma locate_returns_other_version :
  In (Bundle.deploymentOf "apps/v1" "web") (Bundle.candidatesOf Bundle.versionsRef)
  /\ identityMatches Bundle.yaml_Unmarshal Bundle.web (Bundle.deploymentOf "apps/v1" "web")
  /\ Bundle.locate Bundle.versionsRef Bundle.web
     = Done (true, Some (Bundle.deploymentOf "apps/v1beta1" "web"))
  /\ ~ identityMatches Bundle.yaml_Unmarshal Bundle.web
         (Bundle.deploymentOf "apps/v1beta1" "web").
Proof.
  split; [vm_compute; right; left; reflexivity|].
  split; [eexists; split; [vm_compute; reflexivity|repeat split]|].
  split; [vm_compute; reflexivity|].
  intros (mnfObj & Hdec & Hv & _). vm_compute in Hdec.
  injection Hdec as <-. discriminate Hv.
Qed.

(** C7: let the image be pulled and unpacked and the object marshalled,
    and let no document of the bundle decode to an object of the
    resource's kind.  [getManifestYaml] then panics with a nil dereference
    when some document decodes to the nil object without an error, as a
    null document does; it returns [false] and no bytes otherwise, and so
    for the empty bundle. *)
Theorem getManifestYaml_no_kind_match :
  forall (Image : Type) (PullImage : string -> option Image)
         (GenerateConcatYAMLsFromImage : Image -> option string)
         (yaml_Marshal : Unstructured -> option string)
         (yaml_Unmarshal : string -> Decoded)
         (SplitConcatYAMLs : string -> list string)
         (ConcatenateYAMLs : list string -> option string)
         (ManifestSearchByGVKNameNamespace :
            string -> string -> string -> string -> string -> bool * option string)
         (ManifestSearchByContent : string -> string -> bool * option string)
         (imageRef : string) (obj : Unstructured) (image : Image)
         (concatYAMLbytes objBytes : string),
    PullImage imageRef = Some image ->
    GenerateConcatYAMLsFromImage image = Some concatYAMLbytes ->
    yaml_Marshal obj = Some objBytes ->
    (forall manifest mnfObj,
        In manifest (SplitConcatYAMLs concatYAMLbytes) ->
        yaml_Unmarshal manifest = DecodedObject mnfObj ->
        GetKind mnfObj <> GetKind obj) ->
    getManifestYaml Image PullImage GenerateConcatYAMLsFromImage yaml_Marshal
      yaml_Unmarshal SplitConcatYAMLs ConcatenateYAMLs
      ManifestSearchByGVKNameNamespace ManifestSearchByContent imageRef obj
    = if existsb (decodesToNil yaml_Unmarshal) (SplitConcatYAMLs concatYAMLbytes)
      then Panicked NilDereference
      else Done (false, None).
Proof.
  intros Image PullImage Generate yaml_Marshal yaml_Unmarshal Split Concatenate
         SearchGVK SearchContent imageRef obj image concat objBytes
         Hpull Hgen Hmar Hkinds.
  destruct (existsb (decodesToNil yaml_Unmarshal) (Split concat)) eqn:Hnil.
  - now apply (getManifestYaml_nil_document Image PullImage Generate yaml_Marshal
                 yaml_Unmarshal Split Concatenate SearchGVK SearchContent
                 imageRef obj image concat objBytes).
  - apply (getManifestYaml_no_candidate Image PullImage Generate yaml_Marshal
             yaml_Unmarshal Split Concatenate SearchGVK SearchContent
             imageRef obj image concat); try assumption.
    assert (forall manifest, In manifest (Split concat) ->
                             kindMatches yaml_Unmarshal (GetKind obj) manifest = false) as Hno.
    { intros manifest Hin. unfold kindMatches.
      destruct (yaml_Unmarshal manifest) as [| |mnfObj] eqn:Hdec; try reflexivity.
      apply String.eqb_neq. intros Heq.
      exact (Hkinds manifest mnfObj Hin Hdec (eq_sym Heq)). }
    clear Hnil Hkinds.
    induction (Split concat) as [|manifest yamls IH]; simpl; [reflexivity|].
    rewrite (Hno manifest (or_introl eq_refl)). apply IH.
    intros m Hm. apply Hno. now right.
Qed.

(** A bundle with a service and a null document: the panic.  A bundle
    with a service only: nothing found. *)
Lemma getManifestYaml_no_kind_match_witness :
  Bundle.locate Bundle.nullRef Bundle.web = Panicked NilDereference
  /\ Bundle.locate Bundle.otherRef Bundle.web = Done (false, None).
Proof.
  split.
  - apply (getManifestYaml_no_kind_match string
             Bundle.PullImage Bundle.GenerateConcatYAMLsFromImage Bundle.yaml_Marshal
             Bundle.yaml_Unmarshal Bundle.SplitConcatYAMLs Bundle.ConcatenateYAMLs
             Bundle.ManifestSearchByGVKNameNamespace Bundle.ManifestSearchByContent
             Bundle.nullRef Bundle.web
             (String.concat Bundle.separator [Bundle.service; Bundle.null])
             (String.concat Bundle.separator [Bundle.service; Bundle.null])
             (Object Bundle.web)).
    + vm_compute. reflexivity.
    + reflexivity.
    + reflexivity.
    + intros manifest mnfObj Hin Hdec.
      vm_compute in Hin. destruct Hin as [<-|[<-|[]]].
      * vm_compute in Hdec. injection Hdec as <-. simpl. discriminate.
      * vm_compute in Hdec. discriminate.
  - apply (getManifestYaml_no_kind_match string
             Bundle.PullImage Bundle.GenerateConcatYAMLsFromImage Bundle.yaml_Marshal
             Bundle.yaml_Unmarshal Bundle.SplitConcatYAMLs Bundle.ConcatenateYAMLs
             Bundle.ManifestSearchByGVKNameNamespace Bundle.ManifestSearchByContent
             Bundle.otherRef Bundle.web
             (String.concat Bundle.separator [Bundle.service])
             (String.concat Bundle.separator [Bundle.service])
             (Object Bundle.web)).
    + vm_compute. reflexivity.
    + reflexivity.
    + reflexivity.
    + intros manifest mnfObj Hin Hdec.
      vm_compute in Hin. destruct Hin as [<-|[]].
      vm_compute in Hdec. injection Hdec as <-. simpl. discriminate.
Defined.

(** The same panic on a bundle that holds the [web] deployment itself
    next to a null document. *)
Example locate_null_document :
  Bundle.locate Bundle.nullWebRef Bundle.web = Panicked NilDereference.
Proof. vm_compute. reflexivity. Qed.

(** * Further properties of the observer's helpers *)

(** ** Parsing a commit detail *)

Lemma fileName_shape (file : value) (name : string) (w : World) :
  fileShape file name -> fileName file w = (Done name, w).
Proof.
  intros (f & -> & Hname). unfold fileName. run_M. now rewrite Hname.
Qed.

Lemma fileName_done (file : value) (name : string) (w w' : World) :
  fileName file w = (Done name, w') -> fileShape file name /\ w' = w.
Proof.
  unfold fileName. destruct file as [| | | | |f]; run_M; try discriminate.
  destruct (at_key f "filename") as [| | |s| |] eqn:Hname; try discriminate.
  intros [= <- <-]. split; [|reflexivity]. now exists f.
Qed.

Lemma fileNamesOf_shape (files : list value) (names acc : list string) (w : World) :
  Forall2 fileShape files names -> fileNamesOf files acc w = (Done (acc ++ names), w).
Proof.
  intros Hall. revert acc.
  induction Hall as [|file name files names Hfile _ IH]; intros acc; simpl.
  - now rewrite app_nil_r.
  - rewrite bind_run, (fileName_shape _ _ _ Hfile), IH, <- app_assoc. reflexivity.
Qed.

Lemma fileNamesOf_done (files : list value) (acc out : list string) (w w' : World) :
  fileNamesOf files acc w = (Done out, w') ->
  exists names, Forall2 fileShape files names /\ out = acc ++ names /\ w' = w.
Proof.
  revert acc. induction files as [|file files IH]; intros acc; simpl.
  - intros [= <- <-]. exists []. rewrite app_nil_r. auto.
  - rewrite bind_run. destruct (fileName file w) as [[name|p] w1] eqn:Hname;
      [|discriminate].
    apply fileName_done in Hname as [Hfile ->]. intros Hrest.
    apply IH in Hrest as (names & Hall & -> & ->).
    exists (name :: names). rewrite <- app_assoc. auto.
Qed.

(** The report of the error of [json.Unmarshal], if any, is one printed
    line; the parse goes on after it. *)
Lemma report_run {A : Type} (err : option string) (k : M A) (w : World) :
  (match err with
   | Some e => emit (fmt_Println ("Failed to unmarshal git data; err:  " +:+ e))
   | None => mret tt
   end ≫= fun _ => k) w
  = k (appendLog w (unmarshalReport err)).
Proof.
  destruct err as [e|]; unfold emit; run_M; simpl;
    [reflexivity | now rewrite appendLog_nil].
Qed.

Lemma getCommitInfoFromDetail_done_iff :
  forall (json_decode : string -> string + (value * option string)) (body cmtid : string)
         (w w' : World) (cmtd : CommitData),
    getCommitInfoFromDetail json_decode body cmtid w = (Done cmtd, w')
    <-> exists data numberErr author date names,
          json_decode body = inr (Map data, numberErr)
          /\ w' = appendLog w (unmarshalReport numberErr)
          /\ detailShape data author date names
          /\ cmtd = {| Commit := cmtid; Date := date; Author := author;
                       Files := names |}.
Proof.
  intros json_decode body cmtid w w' cmtd. split.
  - unfold getCommitInfoFromDetail.
    destruct (json_Unmarshal json_decode body) as [err data0] eqn:Hu.
    rewrite report_run. unfold json_Unmarshal in Hu.
    destruct (json_decode body) as [e|[[| | | | |data] numberErr]];
      [ | destruct numberErr | | | | | ];
      injection Hu as <- <-; try (run_M; discriminate).
    set (w0 := appendLog w (unmarshalReport numberErr)).
    destruct (at_key data "commit") as [| | | | |c] eqn:Hc; run_M; try discriminate.
    destruct (at_key c "author") as [| | | | |a] eqn:Ha; run_M; try discriminate.
    destruct (at_key a "date") as [| | |date| |] eqn:Hdate;
      try (destruct (at_key a "email"); run_M; discriminate).
    destruct (at_key data "files") as [| | | |files|] eqn:Hfiles;
      try (destruct (at_key a "email"); run_M; discriminate).
    destruct (at_key a "email") as [| | |email| |] eqn:Hemail; run_M; try discriminate.
    + destruct (fileNamesOf files [] w0) as [[names|p] w1] eqn:Hnames; [|discriminate].
      apply fileNamesOf_done in Hnames as (names' & Hall & -> & ->).
      intros [= <- <-].
      exists data, numberErr, "", date, names'.
      split; [reflexivity|]. split; [reflexivity|]. split; [|reflexivity].
      exists c, a, files. auto 10.
    + destruct (fileNamesOf files [] w0) as [[names|p] w1] eqn:Hnames; [|discriminate].
      apply fileNamesOf_done in Hnames as (names' & Hall & -> & ->).
      intros [= <- <-].
      exists data, numberErr, email, date, names'.
      split; [reflexivity|]. split; [reflexivity|]. split; [|reflexivity].
      exists c, a, files. auto 10.
  - intros (data & numberErr & author & date & names & Hdec & ->
            & (c & a & files & Hc & Ha & Hemail & Hdate & Hfiles & Hall) & ->).
    unfold getCommitInfoFromDetail.
    replace (json_Unmarshal json_decode body) with (numberErr, data)
      by (unfold json_Unmarshal; now rewrite Hdec).
    rewrite report_run, Hc. run_M.
    rewrite Ha, Hdate, Hfiles.
    destruct Hemail as [[-> ->]| ->]; run_M;
      now rewrite (fileNamesOf_shape files names [] _ Hall).
Qed.

(** X1: [getCommitInfoFromDetail] returns exactly on the bodies that decode
    to an object of the shape of a commit detail, whether or not
    [json.Unmarshal] reports a number that does not fit a [float64] on the
    way.  It then has printed that error, if there is one, and nothing
    else; the commit of its result is the [cmtid] it was given, the author
    is the e-mail address or empty when there is none, and the files are
    the file names in the order of the response. *)
Theorem getCommitInfoFromDetail_returns_iff :
  forall (json_decode : string -> string + (value * option string)) (body cmtid : string)
         (w w' : World) (cmtd : CommitData),
    getCommitInfoFromDetail json_decode body cmtid w = (Done cmtd, w')
    <-> exists data numberErr author date names,
          json_decode body = inr (Map data, numberErr)
          /\ w' = appendLog w (unmarshalReport numberErr)
          /\ detailShape data author date names
          /\ cmtd = {| Commit := cmtid; Date := date; Author := author;
                       Files := names |}.
Proof. exact getCommitInfoFromDetail_done_iff. Qed.

(** ** Computations without effect *)

Lemma silent_ret {A : Type} (a : A) : silent (mret a : M A).
Proof. eexists. apply logsOnly_ret. Qed.

Lemma silent_panic {A : Type} (p : Panic) : silent (@panic A p).
Proof. eexists. apply logsOnly_panic. Qed.

Lemma silent_bind {A B : Type} (c : M A) (k : A -> M B) :
  silent c -> (forall a, silent (k a)) -> silent (c ≫= k).
Proof.
  intros ([a|p] & Hc) Hk.
  - destruct (Hk a) as (o & Hka). exists o.
    exact (logsOnly_bind c k a o [] [] Hc Hka).
  - exists (Panicked p). now apply logsOnly_bind_panicked.
Qed.

Lemma silent_assertMap (v : value) : silent (assertMap v).
Proof. destruct v; simpl; auto using silent_ret, silent_panic. Qed.

Lemma silent_assertString (v : value) : silent (assertString v).
Proof. destruct v; simpl; auto using silent_ret, silent_panic. Qed.

Lemma silent_assertSlice (v : value) : silent (assertSlice v).
Proof. destruct v; simpl; auto using silent_ret, silent_panic. Qed.

Create HintDb silent.

#[local] Hint Resolve silent_ret silent_panic silent_assertMap silent_assertString
  silent_assertSlice : silent.

Ltac silent_steps :=
  repeat first
    [ apply silent_bind; [|intros ?]
    | progress auto with silent
    | match goal with |- silent (match ?x with _ => _ end) => destruct x end ].

Lemma silent_fileNamesOf (files : list value) (fileNames : list string) :
  silent (fileNamesOf files fileNames).
Proof.
  revert fileNames. induction files as [|file rest IH]; intros fileNames; simpl.
  - auto with silent.
  - apply silent_bind; [unfold fileName; silent_steps | auto].
Qed.

Lemma silent_parentsOf (parents : list value) (result : list Parent) :
  silent (parentsOf parents result).
Proof.
  revert result. induction parents as [|parent rest IH]; intros result; simpl.
  - auto with silent.
  - apply silent_bind; [unfold parentOf; silent_steps | auto].
Qed.

(** A report followed by a computation without effect. *)
Lemma report_then_silent {A : Type} (err : option string) (c : M A) :
  silent c ->
  exists o, logsOnly
              (match err with
               | Some e => emit (fmt_Println ("Failed to unmarshal git data; err:  " +:+ e))
               | None => mret tt
               end ≫= fun _ => c) o (unmarshalReport err).
Proof.
  intros (o & Hc). exists o. destruct err as [e|]; simpl.
  - exact (logsOnly_bind _ _ tt o _ [] (logsOnly_emit _) Hc).
  - exact (logsOnly_bind _ _ tt o [] [] (logsOnly_ret tt) Hc).
Qed.

Lemma logsOnly_frame {A : Type} (c : M A) (o : Outcome A) (events : list Event)
    (w1 w2 : World) :
  logsOnly c o events ->
  fst (c w1) = fst (c w2)
  /\ wire (snd (c w1)) = wire w1
  /\ environ (snd (c w1)) = environ w1
  /\ remote (snd (c w1)) = remote w1
  /\ logged (snd (c w1)) = logged w1 ++ events.
Proof. intros Hc. rewrite (Hc w1), (Hc w2). simpl. auto. Qed.

(** X2: parsing a commit detail is offline.  [getCommitInfoFromDetail]
    sends no request and leaves the environment and the remote service
    alone, its outcome is the same in every world, and it prints one line,
    the error of [json.Unmarshal], exactly when there is such an error. *)
Theorem getCommitInfoFromDetail_offline :
  forall (json_decode : string -> string + (value * option string)) (body cmtid : string)
         (w1 w2 : World),
    fst (getCommitInfoFromDetail json_decode body cmtid w1)
    = fst (getCommitInfoFromDetail json_decode body cmtid w2)
    /\ wire (snd (getCommitInfoFromDetail json_decode body cmtid w1)) = wire w1
    /\ environ (snd (getCommitInfoFromDetail json_decode body cmtid w1)) = environ w1
    /\ remote (snd (getCommitInfoFromDetail json_decode body cmtid w1)) = remote w1
    /\ logged (snd (getCommitInfoFromDetail json_decode body cmtid w1))
       = logged w1 ++ unmarshalReport (fst (json_Unmarshal json_decode body)).
Proof.
  intros json_decode body cmtid w1 w2.
  assert (exists o, logsOnly (getCommitInfoFromDetail json_decode body cmtid) o
                      (unmarshalReport (fst (json_Unmarshal json_decode body))))
    as (o & Ho).
  { unfold getCommitInfoFromDetail.
    destruct (json_Unmarshal json_decode body) as [err data]. simpl fst.
    apply report_then_silent. silent_steps. apply silent_fileNamesOf. }
  exact (logsOnly_frame _ o _ w1 w2 Ho).
Qed.

(** ** Parents of a commit *)

Lemma parentOf_shape (parent : value) (p : Parent) (w : World) :
  parentShape parent p -> parentOf parent w = (Done p, w).
Proof.
  intros (pm & -> & Hurl & Hsha). unfold parentOf. run_M.
  rewrite Hurl, Hsha. now destruct p.
Qed.

Lemma parentOf_done (parent : value) (p : Parent) (w w' : World) :
  parentOf parent w = (Done p, w') -> parentShape parent p /\ w' = w.
Proof.
  unfold parentOf. destruct parent as [| | | | |pm]; run_M; try discriminate.
  destruct (at_key pm "url") as [| | |url| |] eqn:Hurl; try discriminate.
  destruct (at_key pm "sha") as [| | |sha| |] eqn:Hsha; try discriminate.
  intros [= <- <-]. split; [|reflexivity]. now exists pm.
Qed.

Lemma parentsOf_shape (parents : list value) (ps acc : list Parent) (w : World) :
  Forall2 parentShape parents ps -> parentsOf parents acc w = (Done (acc ++ ps), w).
Proof.
  intros Hall. revert acc.
  induction Hall as [|parent p parents ps Hp _ IH]; intros acc; simpl.
  - now rewrite app_nil_r.
  - rewrite bind_run, (parentOf_shape _ _ _ Hp), IH, <- app_assoc. reflexivity.
Qed.

Lemma parentsOf_done (parents : list value) (acc out : list Parent) (w w' : World) :
  parentsOf parents acc w = (Done out, w') ->
  exists ps, Forall2 parentShape parents ps /\ out = acc ++ ps /\ w' = w.
Proof.
  revert acc. induction parents as [|parent parents IH]; intros acc; simpl.
  - intros [= <- <-]. exists []. rewrite app_nil_r. auto.
  - rewrite bind_run. destruct (parentOf parent w) as [[p|e] w1] eqn:Hp;
      [|discriminate].
    apply parentOf_done in Hp as [Hshape ->]. intros Hrest.
    apply IH in Hrest as (ps & Hall & -> & ->).
    exists (p :: ps). rewrite <- app_assoc. auto.
Qed.

(** X3: [getParentsFromDetail] returns exactly on the bodies that decode
    to an object whose [parents] is an array of objects with a string
    [url] and a string [sha], whether or not [json.Unmarshal] reports a
    number that does not fit a [float64] on the way; the result lists them
    in the order of the response (the empty list for an empty array), and
    the error of [json.Unmarshal], if there is one, has been printed and
    nothing else.  A body without a [parents] array, or with an entry of
    another shape, makes it panic. *)
Theorem getParentsFromDetail_returns_iff :
  forall (json_decode : string -> string + (value * option string)) (body : string)
         (w w' : World) (result : list Parent),
    getParentsFromDetail json_decode body w = (Done result, w')
    <-> exists data numberErr parents,
          json_decode body = inr (Map data, numberErr)
          /\ w' = appendLog w (unmarshalReport numberErr)
          /\ at_key data "parents" = Slice parents
          /\ Forall2 parentShape parents result.
Proof.
  intros json_decode body w w' result. split.
  - unfold getParentsFromDetail.
    destruct (json_Unmarshal json_decode body) as [err data0] eqn:Hu.
    rewrite report_run. unfold json_Unmarshal in Hu.
    destruct (json_decode body) as [e|[[| | | | |data] numberErr]];
      [ | destruct numberErr | | | | | ];
      injection Hu as <- <-; try (run_M; discriminate).
    destruct (at_key data "parents") as [| | | |parents|] eqn:Hparents; run_M;
      try discriminate.
    intros Hrun. apply parentsOf_done in Hrun as (ps & Hall & -> & ->).
    exists data, numberErr, parents. auto.
  - intros (data & numberErr & parents & Hdec & -> & Hparents & Hall).
    unfold getParentsFromDetail.
    replace (json_Unmarshal json_decode body) with (numberErr, data)
      by (unfold json_Unmarshal; now rewrite Hdec).
    rewrite report_run, Hparents. run_M.
    exact (parentsOf_shape parents result [] _ Hall).
Qed.

(** X4: [getParentsFromDetail] is offline as well: no request, the
    environment and the remote service left alone, the same outcome in
    every world, and one printed line exactly when [json.Unmarshal]
    reports an error. *)
Theorem getParentsFromDetail_offline :
  forall (json_decode : string -> string + (value * option string)) (body : string) (w1 w2 : World),
    fst (getParentsFromDetail json_decode body w1)
    = fst (getParentsFromDetail json_decode body w2)
    /\ wire (snd (getParentsFromDetail json_decode body w1)) = wire w1
    /\ environ (snd (getParentsFromDetail json_decode body w1)) = environ w1
    /\ remote (snd (getParentsFromDetail json_decode body w1)) = remote w1
    /\ logged (snd (getParentsFromDetail json_decode body w1))
       = logged w1 ++ unmarshalReport (fst (json_Unmarshal json_decode body)).
Proof.
  intros json_decode body w1 w2.
  assert (exists o, logsOnly (getParentsFromDetail json_decode body) o
                      (unmarshalReport (fst (json_Unmarshal json_decode body))))
    as (o & Ho).
  { unfold getParentsFromDetail.
    destruct (json_Unmarshal json_decode body) as [err data]. simpl fst.
    apply report_then_silent. apply silent_bind; [auto with silent|].
    intros parents. apply silent_parentsOf. }
  exact (logsOnly_frame _ o _ w1 w2 Ho).
Qed.

(** ** Fetching and resolving *)

Section FetchFacts.

Variable url_Parse : string -> bool.
Variable json_decode : string -> string + (value * option string).

Lemma setNewManifestProvenanceResult_done_iff (prov : ManifestProvenanceInfo)
    (w w' : World) (r : ManifestProvenanceResult) :
  setNewManifestProvenanceResult url_Parse json_decode prov w = (Done r, w')
  <-> url_Parse (i_GitApiURL prov) = true
      /\ exists body data numberErr author date names,
           responseBody (remote w (wire w) (plainGet (i_GitApiURL prov))) = Some body
           /\ json_decode body = inr (Map data, numberErr)
           /\ detailShape data author date names
           /\ r = {| r_GitRepo := i_GitRepo prov; r_GitApiURL := i_GitApiURL prov;
                     r_CommitID := i_CommitID prov; r_CommitDate := date;
                     r_Author := author; r_Files := names;
                     r_Hash := i_Hash prov; r_Artifact := i_Artifact prov |}
           /\ w' = appendLog
                     (afterGet w (i_GitApiURL prov)
                        (remote w (wire w) (plainGet (i_GitApiURL prov))))
                     (unmarshalReport numberErr).
Proof.
  unfold setNewManifestProvenanceResult. rewrite bind_run. unfold os_Getenv.
  rewrite bind_run. split.
  - destruct (accessGitRepo _ _ _ w) as [[body|p] w1] eqn:Hget; [|discriminate].
    apply accessGitRepo_done in Hget as (Hurl & Hbody & ->).
    rewrite bind_run.
    destruct (getCommitInfoFromDetail _ _ _ _) as [[cmtd|p] w2] eqn:Hparse;
      [|discriminate].
    apply getCommitInfoFromDetail_done_iff in Hparse
      as (data & numberErr & author & date & names & Hdec & -> & Hshape & ->).
    intros [= <- <-]. split; [exact Hurl|].
    exists body, data, numberErr, author, date, names. auto 10.
  - intros (Hurl & body & data & numberErr & author & date & names
            & Hbody & Hdec & Hshape & -> & ->).
    assert (accessGitRepo url_Parse (i_GitApiURL prov)
              (default "" (environ w !! "GIT_TOKEN")) w
            = (Done body,
               afterGet w (i_GitApiURL prov)
                 (remote w (wire w) (plainGet (i_GitApiURL prov))))) as ->.
    { apply accessGitRepo_done. auto. }
    rewrite bind_run.
    assert (getCommitInfoFromDetail json_decode body (i_CommitID prov)
              (afterGet w (i_GitApiURL prov)
                 (remote w (wire w) (plainGet (i_GitApiURL prov))))
            = (Done {| Commit := i_CommitID prov; Date := date; Author := author;
                       Files := names |},
               appendLog
                 (afterGet w (i_GitApiURL prov)
                    (remote w (wire w) (plainGet (i_GitApiURL prov))))
                 (unmarshalReport numberErr))) as ->.
    { apply getCommitInfoFromDetail_done_iff.
      exists data, numberErr, author, date, names. auto. }
    reflexivity.
Qed.

End FetchFacts.

(** X5: [accessGitRepo] returns exactly when the URL parses and
    [client.Get] delivers a response, whatever its status and whether or
    not an error comes with it; it returns the bytes read from the body,
    also when reading the body failed.  It has then called [client.Get]
    once, for the URL, and has logged the error of [client.Get] and the
    error of the read, in this order, as far as there are such errors. *)
Theorem accessGitRepo_returns_iff :
  forall (url_Parse : string -> bool) (url token body : string) (w w' : World),
    accessGitRepo url_Parse url token w = (Done body, w')
    <-> url_Parse url = true
        /\ responseBody (remote w (wire w) (plainGet url)) = Some body
        /\ w' = afterGet w url (remote w (wire w) (plainGet url)).
Proof. exact accessGitRepo_done. Qed.

(** X6: a resolution returns exactly when the commit-detail URL parses,
    [client.Get] delivers a response, and the bytes read from its body
    decode to an object of the shape of a commit detail.  The result takes
    repository, URL, commit, hash and artifact from the info (never from
    the response) and date, author and files from the response.  The log
    then holds the lines of the fetch, followed by the error of
    [json.Unmarshal] if it reported a number that does not fit a
    [float64]. *)
Theorem setNewManifestProvenanceResult_returns_iff :
  forall (url_Parse : string -> bool) (json_decode : string -> string + (value * option string))
         (prov : ManifestProvenanceInfo) (w w' : World) (r : ManifestProvenanceResult),
    setNewManifestProvenanceResult url_Parse json_decode prov w = (Done r, w')
    <-> url_Parse (i_GitApiURL prov) = true
        /\ exists body data numberErr author date names,
             responseBody (remote w (wire w) (plainGet (i_GitApiURL prov))) = Some body
             /\ json_decode body = inr (Map data, numberErr)
             /\ detailShape data author date names
             /\ r = {| r_GitRepo := i_GitRepo prov; r_GitApiURL := i_GitApiURL prov;
                       r_CommitID := i_CommitID prov; r_CommitDate := date;
                       r_Author := author; r_Files := names;
                       r_Hash := i_Hash prov; r_Artifact := i_Artifact prov |}
             /\ w' = appendLog
                       (afterGet w (i_GitApiURL prov)
                          (remote w (wire w) (plainGet (i_GitApiURL prov))))
                       (unmarshalReport numberErr).
Proof. exact setNewManifestProvenanceResult_done_iff. Qed.

(** A commit detail with a number that no [float64] holds: the error of
    [json.Unmarshal] is printed and the resolution returns all the same. *)
Example resolve_large_number :
  fst (Demo.resolve Demo.prov (Demo.world (Demo.serving Demo.commitDetailLargeNumber)))
  = Done {| r_GitRepo := Demo.repoURL; r_GitApiURL := Demo.detailURL;
            r_CommitID := Demo.commitID; r_CommitDate := "2021-08-13T08:34:59Z";
            r_Author := "dev@example.com"; r_Files := ["deploy/app.yaml"];
            r_Hash := "sha256:0f3c";
            r_Artifact := "registry.example.com/acme/app-manifest:v1" |}
  /\ logged (snd (Demo.resolve Demo.prov
                    (Demo.world (Demo.serving Demo.commitDetailLargeNumber))))
     = [fmt_Println "Failed to unmarshal git data; err:  json: cannot unmarshal number 1e400 into Go value of type float64"].
Proof. split; vm_compute; reflexivity. Qed.

(** A body that is a JSON array: the line printed names the JSON kind. *)
Example getCommitInfoFromDetail_array_body :
  logged (snd (getCommitInfoFromDetail Json.decode "[1]" Demo.commitID Demo.w0))
  = [fmt_Println "Failed to unmarshal git data; err:  json: cannot unmarshal array into Go value of type map[string]interface {}"].
Proof. vm_compute. reflexivity. Qed.

(** A service that redirects without end: [accessGitRepo] logs the error
    of [client.Get] and the error of the read, and returns the empty
    body. *)
Example accessGitRepo_redirecting :
  fst (accessGitRepo Demo.url_Parse Demo.detailURL "s3cr3t" (Demo.world Demo.redirecting))
  = Done ""
  /\ logged (snd (accessGitRepo Demo.url_Parse Demo.detailURL "s3cr3t"
                    (Demo.world Demo.redirecting)))
     = [log_Error "Error reported from GitHub APIstopped after 10 redirects";
        log_Error "Error: fail to read body: http: read on closed response body"].
Proof. split; vm_compute; reflexivity. Qed.

(** X7: the environment has no part in a resolution.  In two worlds that
    differ in the environment only (so in [GIT_TOKEN]), a resolution has
    the same outcome, sends the same requests and writes the same log, and
    it leaves the environment as it found it. *)
Theorem setNewManifestProvenanceResult_ignores_environment :
  forall (url_Parse : string -> bool) (json_decode : string -> string + (value * option string))
         (prov : ManifestProvenanceInfo) (w1 w2 : World),
    sameButEnviron w1 w2 ->
    fst (setNewManifestProvenanceResult url_Parse json_decode prov w1)
    = fst (setNewManifestProvenanceResult url_Parse json_decode prov w2)
    /\ sameButEnviron (snd (setNewManifestProvenanceResult url_Parse json_decode prov w1))
                      (snd (setNewManifestProvenanceResult url_Parse json_decode prov w2))
    /\ environ (snd (setNewManifestProvenanceResult url_Parse json_decode prov w1))
       = environ w1.
Proof.
  intros url_Parse json_decode prov w1 w2 (Hremote & Hwire & Hlog).
  unfold setNewManifestProvenanceResult. rewrite !bind_run. unfold os_Getenv.
  rewrite !bind_run, !accessGitRepo_run.
  destruct (url_Parse (i_GitApiURL prov)); [|now repeat split].
  rewrite <- Hremote, <- Hwire.
  destruct (quiet_getCommitInfoFromDetail json_decode) with
    (cmtid := i_CommitID prov)
    (body := match remote w1 (wire w1) (plainGet (i_GitApiURL prov)) with
             | Served body _ | ResponseWithError _ body _ => body
             | TransportError _ => ""
             end) as (o & events & Hq).
  destruct (remote w1 (wire w1) (plainGet (i_GitApiURL prov)))
    as [err|body [err|]|err body [readErr|]];
    unfold sameButEnviron; simpl.
  - rewrite Hremote, Hwire, Hlog. auto.
  - rewrite !bind_run, !Hq. destruct o; simpl; rewrite Hremote, Hwire, Hlog; auto.
  - rewrite !bind_run, !Hq. destruct o; simpl; rewrite Hremote, Hwire, Hlog; auto.
  - rewrite !bind_run, !Hq. destruct o; simpl; rewrite Hremote, Hwire, Hlog; auto.
  - rewrite !bind_run, !Hq. destruct o; simpl; rewrite Hremote, Hwire, Hlog; auto.
Qed.

(** The worlds of the concrete setting with two different tokens. *)
Lemma setNewManifestProvenanceResult_ignores_environment_witness :
  fst (Demo.resolve Demo.prov Demo.w0) = fst (Demo.resolve Demo.prov Attestation.otherToken)
  /\ sameButEnviron (snd (Demo.resolve Demo.prov Demo.w0))
                    (snd (Demo.resolve Demo.prov Attestation.otherToken))
  /\ environ (snd (Demo.resolve Demo.prov Demo.w0)) = environ Demo.w0.
Proof.
  apply (setNewManifestProvenanceResult_ignores_environment Demo.url_Parse Json.decode
           Demo.prov Demo.w0 Attestation.otherToken).
  repeat split.
Defined.

(** ** The commits of an attestation *)

Section HistoryFacts.

Variable url_Parse : string -> bool.
Variable json_decode : string -> string + (value * option string).
Variable decodeStatement : string -> option string * option value.

Lemma commitOf_done (token : string) (m : value) (cmtd : CommitData) (w w' : World) :
  commitOf url_Parse json_decode token m w = (Done cmtd, w') ->
  exists uri commit,
    materialShape m uri commit
    /\ Commit cmtd = commit
    /\ wire w' = wire w ++ [fetchOf (uri, commit)]
    /\ remote w' = remote w
    /\ environ w' = environ w.
Proof.
  unfold commitOf. destruct m as [| | | | |mm]; run_M; try discriminate.
  destruct (at_key mm "digest") as [| | | | |dm] eqn:Hdigest; try discriminate.
  destruct (at_key dm "commit") as [| | |commit| |] eqn:Hcommit; try discriminate.
  destruct (at_key mm "uri") as [| | |uri| |] eqn:Huri; try discriminate.
  destruct (accessGitRepo _ _ _ w) as [[body|p] w1] eqn:Hget; [|discriminate].
  apply accessGitRepo_done in Hget as (_ & _ & ->).
  intros Hparse.
  apply getCommitInfoFromDetail_done_iff in Hparse
    as (data & numberErr & author & date & names & _ & -> & _ & ->).
  exists uri, commit. split; [now exists mm, dm|].
  simpl. auto.
Qed.

Lemma commitsOf_done (token : string) (ms : list value) (acc out : list CommitData)
    (w w' : World) :
  commitsOf url_Parse json_decode token ms acc w = (Done out, w') ->
  exists mats,
    Forall2 (fun m uc => materialShape m (fst uc) (snd uc)) ms mats
    /\ wire w' = wire w ++ map fetchOf mats
    /\ map Commit out = map Commit acc ++ map snd mats.
Proof.
  revert acc w. induction ms as [|m ms IH]; intros acc w; simpl.
  - intros [= <- <-]. exists []. simpl. rewrite !app_nil_r. auto.
  - rewrite bind_run.
    destruct (commitOf _ _ _ m w) as [[cmtd|p] w1] eqn:Hm; [|discriminate].
    apply commitOf_done in Hm as (uri & commit & Hshape & Hc & Hwire & _ & _).
    intros Hrest. apply IH in Hrest as (mats & Hall & Hwire' & Hout).
    exists ((uri, commit) :: mats). split; [constructor; assumption|]. split.
    + rewrite Hwire', Hwire, <- app_assoc. reflexivity.
    + rewrite Hout, map_app, <- app_assoc. simpl. now rewrite Hc.
Qed.

(** X8: when [getCommitInfo] returns, the statement had an object as its
    predicate, and the function has sent one GET per material of the
    [materials] array, in the order of the array, each for the commit
    detail URL derived from the material's [uri] and [digest.commit]; the
    results carry these commits in the same order.  Without a [materials]
    array it has sent nothing and returns no commit. *)
Theorem getCommitInfo_done (attestation : string) (res : list CommitData) (w w' : World) :
  getCommitInfo url_Parse json_decode decodeStatement attestation w = (Done res, w') ->
  exists pm mats,
    snd (decodeStatement attestation) = Some (Map pm)
    /\ materialsOf pm mats
    /\ wire w' = wire w ++ map fetchOf mats
    /\ map Commit res = map snd mats.
Proof.
  unfold getCommitInfo. rewrite bind_run. unfold os_Getenv.
  destruct (decodeStatement attestation) as [err statement]. rewrite bind_run.
  set (report := match err with Some e => _ | None => _ end).
  assert (exists lines, report w = (Done tt, appendLog w lines)) as (lines & ->).
  { subst report. destruct err; [eexists; reflexivity|].
    exists []. now rewrite appendLog_nil. }
  destruct statement as [[| | | | |pm]|]; run_M; try discriminate.
  unfold materialsOf.
  destruct (pm !! "materials") as [[| | | |ms|]|] eqn:Hmat; unfold emit; run_M;
    simpl commitsOf; run_M;
    try (intros [= <- <-]; exists pm, []; rewrite Hmat; simpl; rewrite app_nil_r;
         now auto).
  intros Hrun. apply commitsOf_done in Hrun as (mats & Hall & Hwire & Hout).
  exists pm, mats. rewrite Hmat. auto.
Qed.

(** X9: a predicate without a [materials] array (the key is missing, or
    its value is not an array) is no failure for [getCommitInfo]: it
    prints that the conversion failed, sends no request and returns the
    empty list. *)
Theorem getCommitInfo_no_array (attestation : string) (err : option string)
    (pm : gmap string value) (w : World) :
  decodeStatement attestation = (err, Some (Map pm)) ->
  (forall ms, pm !! "materials" <> Some (Slice ms)) ->
  fst (getCommitInfo url_Parse json_decode decodeStatement attestation w) = Done []
  /\ wire (snd (getCommitInfo url_Parse json_decode decodeStatement attestation w))
     = wire w
  /\ In (fmt_Println "Failed to convert into materialsArray")
        (logged (snd (getCommitInfo url_Parse json_decode decodeStatement attestation w))).
Proof.
  intros Hdec Hno. unfold getCommitInfo. rewrite bind_run. unfold os_Getenv.
  rewrite Hdec. unfold emit. run_M.
  destruct err as [e|], (pm !! "materials") as [[| | | |ms|]|] eqn:Hmat;
    try (exfalso; exact (Hno ms eq_refl));
    simpl; (split; [reflexivity|]); (split; [reflexivity|]);
    rewrite ?in_app_iff; simpl; auto 10.
Qed.

(** X10: an attestation that does not decode to a statement whose
    predicate is an object (the statement stays nil, or its predicate is
    missing or of another type) makes [getCommitInfo] panic before any
    request is sent. *)
Theorem getCommitInfo_no_predicate (attestation : string) (w : World) :
  (forall pm, snd (decodeStatement attestation) <> Some (Map pm)) ->
  exists p,
    fst (getCommitInfo url_Parse json_decode decodeStatement attestation w) = Panicked p
    /\ wire (snd (getCommitInfo url_Parse json_decode decodeStatement attestation w))
       = wire w.
Proof.
  intros Hno. unfold getCommitInfo. rewrite bind_run. unfold os_Getenv.
  destruct (decodeStatement attestation) as [err statement]. simpl in Hno.
  unfold emit. run_M.
  destruct err as [e|], statement as [[| | | | |pm]|];
    try (exfalso; exact (Hno pm eq_refl));
    simpl; eexists; split; reflexivity.
Qed.

End HistoryFacts.

(** The statement of the concrete setting, with one material. *)
Lemma getCommitInfo_done_witness :
  exists pm mats,
    snd (Attestation.decodeStatement Attestation.statement) = Some (Map pm)
    /\ materialsOf pm mats
    /\ wire (snd (Attestation.getCommitInfo Attestation.statement Demo.w0))
       = wire Demo.w0 ++ map fetchOf mats
    /\ map Commit [ {| Commit := "abc123"; Date := "2021-08-13T08:34:59Z";
                       Author := "dev@example.com";
                       Files := ["deploy/app.yaml"; "README.md"] |} ]
       = map snd mats.
Proof.
  apply (getCommitInfo_done Demo.url_Parse Json.decode Attestation.decodeStatement
           Attestation.statement _ Demo.w0).
  vm_compute. reflexivity.
Defined.

(** The statement of the concrete setting without its materials. *)
Lemma getCommitInfo_no_array_witness :
  fst (Attestation.getCommitInfo Attestation.bare Demo.w0) = Done []
  /\ wire (snd (Attestation.getCommitInfo Attestation.bare Demo.w0)) = wire Demo.w0
  /\ In (fmt_Println "Failed to convert into materialsArray")
        (logged (snd (Attestation.getCommitInfo Attestation.bare Demo.w0))).
Proof.
  apply (getCommitInfo_no_array Demo.url_Parse Json.decode Attestation.decodeStatement
           Attestation.bare None (Attestation.predicateOf Attestation.bare) Demo.w0).
  - vm_compute. reflexivity.
  - intros ms. vm_compute. discriminate.
Defined.

(** An attestation that is not JSON. *)
Lemma getCommitInfo_no_predicate_witness :
  exists p,
    fst (Attestation.getCommitInfo Demo.malformed Demo.w0) = Panicked p
    /\ wire (snd (Attestation.getCommitInfo Demo.malformed Demo.w0)) = wire Demo.w0.
Proof.
  apply (getCommitInfo_no_predicate Demo.url_Parse Json.decode
           Attestation.decodeStatement Demo.malformed Demo.w0).
  intros pm. vm_compute. discriminate.
Defined.

(** ** Lookup of a previous provenance result *)

(** X11: [getTargetProvenanceLog] reports [true] exactly when some
    previous result has the repository of the new info; it then returns
    the first such result of the list, and otherwise [false] with the
    empty result. *)
Theorem getTargetProvenanceLog_spec :
  forall (new : ManifestProvenanceInfo) (lastProvs : list ManifestProvenanceResult),
    (fst (getTargetProvenanceLog new lastProvs) = true
     <-> exists prov, In prov lastProvs /\ r_GitRepo prov = i_GitRepo new)
    /\ (fst (getTargetProvenanceLog new lastProvs) = true ->
        r_GitRepo (snd (getTargetProvenanceLog new lastProvs)) = i_GitRepo new
        /\ exists before after,
             lastProvs = before ++ snd (getTargetProvenanceLog new lastProvs) :: after
             /\ Forall (fun prov => r_GitRepo prov <> i_GitRepo new) before)
    /\ (fst (getTargetProvenanceLog new lastProvs) = false ->
        snd (getTargetProvenanceLog new lastProvs) = zeroManifestProvenanceResult).
Proof.
  intros new lastProvs. induction lastProvs as [|prov rest IH]; simpl.
  - split; [|split].
    + split; [discriminate | intros (p & [] & _)].
    + discriminate.
    + reflexivity.
  - destruct (String.eqb_spec (r_GitRepo prov) (i_GitRepo new)) as [Heq|Hne]; simpl.
    + split; [|split].
      * split; [|reflexivity]. intros _. exists prov. auto.
      * intros _. split; [exact Heq|]. exists [], rest. split; [reflexivity|constructor].
      * discriminate.
    + destruct IH as (IHiff & IHtrue & IHfalse). split; [|split].
      * rewrite IHiff. split.
        -- intros (p & Hin & Hp). exists p. auto.
        -- intros (p & [<-|Hin] & Hp); [contradiction | exists p; auto].
      * intros Ht. destruct (IHtrue Ht) as (Hrepo & before & after & Heq & Hall).
        split; [exact Hrepo|]. exists (prov :: before), after. split.
        -- simpl. now rewrite <- Heq.
        -- constructor; assumption.
      * exact IHfalse.
Qed.

(** X12: the lookup goes by repository alone.  Two infos of the same
    repository get the same answer, whatever their commits, artifacts and
    hashes are; the result found may be one of another commit. *)
Theorem getTargetProvenanceLog_by_repo_only :
  forall (new1 new2 : ManifestProvenanceInfo) (lastProvs : list ManifestProvenanceResult),
    i_GitRepo new1 = i_GitRepo new2 ->
    getTargetProvenanceLog new1 lastProvs = getTargetProvenanceLog new2 lastProvs.
Proof.
  intros new1 new2 lastProvs Hrepo.
  induction lastProvs as [|prov rest IH]; simpl; [reflexivity|].
  now rewrite Hrepo, IH.
Qed.

(** The info of the concrete setting and the same repository at a later
    commit: both find the result resolved for the earlier commit. *)
Lemma getTargetProvenanceLog_by_repo_only_witness :
  getTargetProvenanceLog Demo.prov [Demo.resolved]
  = getTargetProvenanceLog Attested.laterInfo [Demo.resolved]
  /\ getTargetProvenanceLog Attested.laterInfo [Demo.resolved] = (true, Demo.resolved)
  /\ r_CommitID Demo.resolved <> i_CommitID Attested.laterInfo.
Proof.
  split; [|split].
  - apply (getTargetProvenanceLog_by_repo_only Demo.prov Attested.laterInfo
             [Demo.resolved]).
    reflexivity.
  - vm_compute. reflexivity.
  - vm_compute. discriminate.
Defined.

(** ** Provenance extraction, continued *)

(** X13: a verification result without any statement of a manifest image
    (so also one without any statement) gives a resource log with no
    provenance record, with the namespace and name of the resource, and
    with the kind of its group-version-kind: the kind of the resource when
    its apiVersion parses as a group and version, and the empty string
    when it does not. *)
Theorem GetProvenanceFromVerifyResourceResult_no_manifest_image :
  forall (ArtifactManifestImage : string) (res : VerifyResult),
    Forall (fun pr => p_ArtifactType pr <> ArtifactManifestImage) (Provenances res) ->
    GetProvenanceFromVerifyResourceResult ArtifactManifestImage res
    = {| o_Kind := if Nat.leb 2 (slashes (GetAPIVersion (v_Resource res)))
                   then "" else GetKind (v_Resource res);
         o_Namespace := GetNamespace (v_Resource res);
         o_Name := GetName (v_Resource res);
         o_Resource := v_Resource res;
         o_ManifestProvenanceInfo := [] |}.
Proof.
  intros AMI res Hall. unfold GetProvenanceFromVerifyResourceResult.
  fold (GroupVersionKind_Kind (v_Resource res)).
  destruct (Nat.eqb (length (Provenances res)) 0); [reflexivity|].
  generalize {| o_Kind := GroupVersionKind_Kind (v_Resource res);
                o_Namespace := GetNamespace (v_Resource res);
                o_Name := GetName (v_Resource res);
                o_Resource := v_Resource res;
                o_ManifestProvenanceInfo := [] |}.
  induction Hall as [|pr prs Hpr _ IH]; intros resourceLog; simpl; [reflexivity|].
  unfold visitProvenance at 2.
  apply String.eqb_neq in Hpr. rewrite Hpr. simpl. apply IH.
Qed.

(** Two statements, neither of a manifest image; and a resource whose
    apiVersion does not parse, whose log has the empty kind. *)
Lemma GetProvenanceFromVerifyResourceResult_no_manifest_image_witness :
  o_ManifestProvenanceInfo
    (GetProvenanceFromVerifyResourceResult Attested.manifestImage Attested.resourcesOnly)
  = []
  /\ o_Kind (GetProvenanceFromVerifyResourceResult Attested.manifestImage
               Attested.resourcesOnly) = "Deployment"
  /\ o_Kind (GetProvenanceFromVerifyResourceResult Attested.manifestImage
               Attested.malformed) = ""
  /\ GetKind (v_Resource Attested.malformed) = "Deployment".
Proof.
  rewrite (GetProvenanceFromVerifyResourceResult_no_manifest_image
             Attested.manifestImage Attested.resourcesOnly),
          (GetProvenanceFromVerifyResourceResult_no_manifest_image
             Attested.manifestImage Attested.malformed).
  - repeat split.
  - constructor.
  - repeat constructor; vm_compute; discriminate.
Defined.

(** X14: every provenance record of the extractor stems from a material
    of a manifest-image statement of the input: its repository is the
    material's URI, its commit is the [commit] digest of the material (empty
    when there is none), its URL is the commit-detail URL of this
    repository and commit, and artifact and hash are the statement's. *)
Theorem GetProvenanceFromVerifyResourceResult_records :
  forall (ArtifactManifestImage : string) (res : VerifyResult),
    Forall
      (fun info =>
         i_GitApiURL info = convertToCommitDetailURL (i_GitRepo info) (i_CommitID info)
         /\ exists pr am,
              In pr (Provenances res)
              /\ p_ArtifactType pr = ArtifactManifestImage
              /\ In am (AttestationMaterials pr)
              /\ i_GitRepo info = URI am
              /\ i_CommitID info = default "" (Digest am !! "commit")
              /\ i_Artifact info = p_Artifact pr
              /\ i_Hash info = p_Hash pr)
      (o_ManifestProvenanceInfo
         (GetProvenanceFromVerifyResourceResult ArtifactManifestImage res)).
Proof.
  intros AMI res.
  assert (o_ManifestProvenanceInfo (GetProvenanceFromVerifyResourceResult AMI res)
          = flat_map (fun pr => map (provenanceInfoOf pr) (AttestationMaterials pr))
                     (List.filter (isManifestImage AMI) (Provenances res))) as ->.
  { unfold GetProvenanceFromVerifyResourceResult.
    destruct (Provenances res) as [|pr prs]; [reflexivity|].
    change (Nat.eqb (length (pr :: prs)) 0) with false. cbv iota.
    match goal with
    | |- context [fold_left _ _ ?log0] =>
        destruct (fold_visitProvenance AMI (pr :: prs) log0) as (-> & _)
    end.
    reflexivity. }
  apply List.Forall_forall. intros info Hin.
  apply in_flat_map in Hin as (pr & Hpr & Hin).
  apply filter_In in Hpr as (Hpr & Himage).
  apply in_map_iff in Hin as (am & <- & Ham).
  split; [reflexivity|]. exists pr, am.
  unfold isManifestImage in Himage. apply String.eqb_eq in Himage.
  repeat split; assumption.
Qed.

(** ** Manifest location, continued *)

(** X15: the loop over the documents of the bundle panics with a nil
    dereference exactly when some document decodes to the nil object
    without an error, as a null document does.  Otherwise the candidates
    handed to the two searches are the documents that decode to an object
    of the wanted kind, in the order of the bundle; a document that does
    not decode is passed over. *)
Theorem kindMatchedYAMLs_spec :
  forall (yaml_Unmarshal : string -> Decoded) (kind : string) (yamls : list string),
    kindMatchedYAMLs yaml_Unmarshal kind yamls
    = (if existsb (decodesToNil yaml_Unmarshal) yamls
       then Panicked NilDereference
       else Done (List.filter (kindMatches yaml_Unmarshal kind) yamls))
    /\ ((exists p, kindMatchedYAMLs yaml_Unmarshal kind yamls = Panicked p)
        <-> exists manifest, In manifest yamls /\ yaml_Unmarshal manifest = DecodedNil)
    /\ forall candidates manifest,
         kindMatchedYAMLs yaml_Unmarshal kind yamls = Done candidates ->
         (In manifest candidates
          <-> In manifest yamls
              /\ exists mnfObj, yaml_Unmarshal manifest = DecodedObject mnfObj
                                /\ GetKind mnfObj = kind).
Proof.
  intros yaml_Unmarshal kind yamls. rewrite kindMatchedYAMLs_run.
  assert (existsb (decodesToNil yaml_Unmarshal) yamls = true
          <-> exists manifest, In manifest yamls /\ yaml_Unmarshal manifest = DecodedNil)
    as Hnil.
  { rewrite existsb_exists. unfold decodesToNil.
    split; intros (manifest & Hin & Hdec); exists manifest; (split; [exact Hin|]).
    - now destruct (yaml_Unmarshal manifest).
    - now rewrite Hdec. }
  split; [reflexivity|]. split.
  - rewrite <- Hnil. destruct (existsb _ yamls).
    + split; [reflexivity | intros _; now eexists].
    + split; [intros (p & Hp); discriminate Hp | discriminate].
  - intros candidates manifest.
    destruct (existsb _ yamls); [discriminate|]. intros [= <-].
    rewrite filter_In. unfold kindMatches. split.
    + intros [Hin Hk]. split; [exact Hin|].
      destruct (yaml_Unmarshal manifest) as [| |mnfObj]; try discriminate.
      exists mnfObj. apply String.eqb_eq in Hk. auto.
    + intros [Hin (mnfObj & -> & <-)]. split; [exact Hin | apply String.eqb_refl].
Qed.

(** X16: where the outcome of [getManifestYaml] comes from.  It reports
    found with bytes [b] exactly when the image is pulled and unpacked, the
    object is marshalled, no document of the bundle decodes to the nil
    object, there is a candidate of the object's kind, and either the
    identity search over the candidates reports [b], or it reports nothing
    and the content search reports [b].  A result that is not found never
    carries bytes.  It panics, with a nil dereference, exactly when the
    image is pulled and unpacked, the object is marshalled and some
    document of the bundle decodes to the nil object. *)
Theorem getManifestYaml_found_iff :
  forall (Image : Type) (PullImage : string -> option Image)
         (GenerateConcatYAMLsFromImage : Image -> option string)
         (yaml_Marshal : Unstructured -> option string)
         (yaml_Unmarshal : string -> Decoded)
         (SplitConcatYAMLs : string -> list string)
         (ConcatenateYAMLs : list string -> option string)
         (ManifestSearchByGVKNameNamespace :
            string -> string -> string -> string -> string -> bool * option string)
         (ManifestSearchByContent : string -> string -> bool * option string)
         (imageRef : string) (obj : Unstructured),
    (forall b,
        getManifestYaml Image PullImage GenerateConcatYAMLsFromImage yaml_Marshal
          yaml_Unmarshal SplitConcatYAMLs ConcatenateYAMLs
          ManifestSearchByGVKNameNamespace ManifestSearchByContent imageRef obj
        = Done (true, b)
        <-> exists image concatYAMLbytes objBytes candidateManifestBytes,
              PullImage imageRef = Some image
              /\ GenerateConcatYAMLsFromImage image = Some concatYAMLbytes
              /\ yaml_Marshal obj = Some objBytes
              /\ existsb (decodesToNil yaml_Unmarshal)
                   (SplitConcatYAMLs concatYAMLbytes) = false
              /\ List.filter (kindMatches yaml_Unmarshal (GetKind obj))
                   (SplitConcatYAMLs concatYAMLbytes) <> []
              /\ ConcatenateYAMLs
                   (List.filter (kindMatches yaml_Unmarshal (GetKind obj))
                      (SplitConcatYAMLs concatYAMLbytes))
                 = Some candidateManifestBytes
              /\ (ManifestSearchByGVKNameNamespace candidateManifestBytes
                    (GetAPIVersion obj) (GetKind obj) (GetName obj) (GetNamespace obj)
                  = (true, b)
                  \/ (fst (ManifestSearchByGVKNameNamespace candidateManifestBytes
                             (GetAPIVersion obj) (GetKind obj) (GetName obj)
                             (GetNamespace obj)) = false
                      /\ ManifestSearchByContent candidateManifestBytes objBytes
                         = (true, b))))
    /\ (forall b,
           getManifestYaml Image PullImage GenerateConcatYAMLsFromImage yaml_Marshal
             yaml_Unmarshal SplitConcatYAMLs ConcatenateYAMLs
             ManifestSearchByGVKNameNamespace ManifestSearchByContent imageRef obj
           = Done (false, b) ->
           b = None)
    /\ (forall p,
           getManifestYaml Image PullImage GenerateConcatYAMLsFromImage yaml_Marshal
             yaml_Unmarshal SplitConcatYAMLs ConcatenateYAMLs
             ManifestSearchByGVKNameNamespace ManifestSearchByContent imageRef obj
           = Panicked p
           <-> p = NilDereference
               /\ exists image concatYAMLbytes objBytes,
                    PullImage imageRef = Some image
                    /\ GenerateConcatYAMLsFromImage image = Some concatYAMLbytes
                    /\ yaml_Marshal obj = Some objBytes
                    /\ existsb (decodesToNil yaml_Unmarshal)
                         (SplitConcatYAMLs concatYAMLbytes) = true).
Proof.
  intros Image PullImage Generate yaml_Marshal yaml_Unmarshal Split Concatenate
         SearchGVK SearchContent imageRef obj.
  unfold getManifestYaml. split; [|split].
  - intros b. split.
    + destruct (PullImage imageRef) as [image|] eqn:Hpull; [|discriminate].
      destruct (Generate image) as [concat|] eqn:Hgen; [|discriminate].
      destruct (yaml_Marshal obj) as [objBytes|] eqn:Hmar; [|discriminate].
      cbv zeta. rewrite kindMatchedYAMLs_run.
      destruct (existsb _ (Split concat)) eqn:Hnil; [discriminate|].
      destruct (List.filter (kindMatches yaml_Unmarshal (GetKind obj)) (Split concat))
        as [|m ms] eqn:Hk; [discriminate|].
      change (Nat.eqb (length (m :: ms)) 0) with false. cbv iota.
      destruct (Concatenate (m :: ms)) as [cands|] eqn:Hcat; [|discriminate].
      intros Hrun. exists image, concat, objBytes, cands.
      rewrite Hk. repeat split; try assumption; try discriminate.
      destruct (SearchGVK cands _ _ _ _) as [[|] idBytes].
      * left. now injection Hrun as ->.
      * right. split; [reflexivity|].
        destruct (SearchContent cands objBytes) as [[|] cBytes];
          [now injection Hrun as -> | discriminate].
    + intros (image & concat & objBytes & cands & -> & -> & -> & Hnil & Hne & Hcat
              & Hsearch).
      cbv zeta. rewrite kindMatchedYAMLs_run, Hnil.
      destruct (List.filter (kindMatches yaml_Unmarshal (GetKind obj)) (Split concat))
        as [|m ms] eqn:Hk; [congruence|].
      change (Nat.eqb (length (m :: ms)) 0) with false. cbv iota. rewrite Hcat.
      destruct Hsearch as [->|[Hid ->]]; [reflexivity|].
      destruct (SearchGVK cands _ _ _ _) as [[|] idBytes]; [discriminate|reflexivity].
  - intros b.
    destruct (PullImage imageRef) as [image|]; [|now intros [= <-]].
    destruct (Generate image) as [concat|]; [|now intros [= <-]].
    destruct (yaml_Marshal obj) as [objBytes|]; [|now intros [= <-]].
    cbv zeta. rewrite kindMatchedYAMLs_run.
    destruct (existsb _ (Split concat)); [discriminate|].
    destruct (Nat.eqb _ 0); [now intros [= <-]|].
    destruct (Concatenate _) as [cands|]; [|now intros [= <-]].
    destruct (SearchGVK cands _ _ _ _) as [[|] idBytes]; [discriminate|].
    destruct (SearchContent cands objBytes) as [[|] cBytes];
      [discriminate | now intros [= <-]].
  - intros p. split.
    + destruct (PullImage imageRef) as [image|] eqn:Hpull; [|discriminate].
      destruct (Generate image) as [concat|] eqn:Hgen; [|discriminate].
      destruct (yaml_Marshal obj) as [objBytes|] eqn:Hmar; [|discriminate].
      cbv zeta. rewrite kindMatchedYAMLs_run.
      destruct (existsb _ (Split concat)) eqn:Hnil.
      * intros [= <-]. split; [reflexivity|]. exists image, concat, objBytes. auto.
      * destruct (Nat.eqb _ 0); [discriminate|].
        destruct (Concatenate _) as [cands|]; [|discriminate].
        destruct (SearchGVK cands _ _ _ _) as [[|] idBytes]; [discriminate|].
        destruct (SearchContent cands objBytes) as [[|] cBytes]; discriminate.
    + intros (-> & image & concat & objBytes & -> & -> & -> & Hnil).
      cbv zeta. now rewrite kindMatchedYAMLs_run, Hnil.
Qed.

(** ** URL derivation, continued *)

Section UrlFacts.

Local Open Scope nat_scope.
Local Arguments String.append : simpl nomatch.

Lemma append_nil_r (s : string) : s +:+ "" = s.
Proof. induction s as [|c s IH]; simpl; [reflexivity | now rewrite IH]. Qed.

Lemma substring_occursAt (sub s : string) (i : nat) :
  sub <> "" -> String.substring i (String.length sub) s = sub -> occursAt sub s i.
Proof.
  intros Hne Hat. pose proof (substring_within _ _ _ Hne Hat) as Hin.
  exists (String.substring 0 i s),
         (String.substring (i + String.length sub)
            (String.length s - (i + String.length sub)) s).
  split.
  - pose proof (substring_split s i (String.length sub) Hin) as Hs.
    rewrite Hat in Hs. exact Hs.
  - apply (length_substring s 0 i). lia.
Qed.

Lemma substring_inside (a x : string) (i n : nat) :
  i + n <= String.length a ->
  String.substring i n (a +:+ x) = String.substring i n a.
Proof.
  revert i n. induction a as [|c a IH]; intros i n Hle; simpl in Hle.
  - assert (i = 0) by lia. assert (n = 0) by lia. subst. now destruct x.
  - destruct i as [|i]; simpl.
    + destruct n as [|n]; [reflexivity|]. f_equal. apply (IH 0 n). lia.
    + apply IH. lia.
Qed.

(** An occurrence that lies within a common prefix of two strings is an
    occurrence in both. *)
Lemma occursAt_common_prefix (sub a x y : string) (i : nat) :
  sub <> "" -> i + String.length sub <= String.length a ->
  occursAt sub (a +:+ x) i -> occursAt sub (a +:+ y) i.
Proof.
  intros Hne Hle Hocc. apply occursAt_substring in Hocc.
  apply substring_occursAt; [exact Hne|].
  rewrite substring_inside in * by exact Hle. exact Hocc.
Qed.

(** X17: a URI in which neither [.git] nor [github.com] occurs is taken
    as it is: the commit-detail URL is the URI followed by [/] and the
    commit. *)
Theorem convertToCommitDetailURL_other_host :
  forall uri commit : string,
    (forall i, ~ occursAt ".git" uri i) ->
    (forall i, ~ occursAt "github.com" uri i) ->
    convertToCommitDetailURL uri commit = uri +:+ "/" +:+ commit.
Proof.
  intros uri commit Hgit Hhost. unfold convertToCommitDetailURL.
  assert (strings.Replace uri ".git" "/commits" 1 = uri) as ->.
  { apply (firstReplaced_unique ".git" "/commits" uri).
    - apply Replace_once. discriminate.
    - left. auto. }
  assert (strings.Replace uri "github.com" "api.github.com/repos" 1 = uri) as ->.
  { apply (firstReplaced_unique "github.com" "api.github.com/repos" uri).
    - apply Replace_once. discriminate.
    - left. auto. }
  reflexivity.
Qed.

(** X18: the intended case.  For a URI [prefix github.com path .git] in
    which this [.git] and this [github.com] are the leftmost ones, the
    commit-detail URL is
    [prefix api.github.com/repos path /commits/ commit]. *)
Theorem convertToCommitDetailURL_github :
  forall prefix path commit : string,
    (forall i, i < String.length (prefix +:+ "github.com" +:+ path) ->
               ~ occursAt ".git" (prefix +:+ "github.com" +:+ path +:+ ".git") i) ->
    (forall i, i < String.length prefix ->
               ~ occursAt "github.com" (prefix +:+ "github.com" +:+ path +:+ ".git") i) ->
    convertToCommitDetailURL (prefix +:+ "github.com" +:+ path +:+ ".git") commit
    = prefix +:+ "api.github.com/repos" +:+ path +:+ "/commits/" +:+ commit.
Proof.
  intros prefix path commit Hgit Hhost. unfold convertToCommitDetailURL.
  set (uri := prefix +:+ "github.com" +:+ path +:+ ".git") in *.
  assert (strings.Replace uri ".git" "/commits" 1
          = prefix +:+ "github.com" +:+ path +:+ "/commits") as ->.
  { apply (firstReplaced_unique ".git" "/commits" uri).
    - apply Replace_once. discriminate.
    - right. exists (prefix +:+ "github.com" +:+ path), "".
      split; [|split].
      + subst uri. now rewrite !append_assoc.
      + exact Hgit.
      + now rewrite !append_assoc, append_nil_r. }
  assert (strings.Replace (prefix +:+ "github.com" +:+ path +:+ "/commits")
            "github.com" "api.github.com/repos" 1
          = prefix +:+ "api.github.com/repos" +:+ path +:+ "/commits") as ->.
  { apply (firstReplaced_unique "github.com" "api.github.com/repos"
             (prefix +:+ "github.com" +:+ path +:+ "/commits")).
    - apply Replace_once. discriminate.
    - right. exists prefix, (path +:+ "/commits"). split; [reflexivity|].
      split; [|reflexivity]. intros i Hi Hocc. apply (Hhost i Hi).
      subst uri. rewrite <- append_assoc in Hocc |- *.
      apply (occursAt_common_prefix "github.com" (prefix +:+ "github.com")
               (path +:+ "/commits") (path +:+ ".git") i); try assumption.
      + discriminate.
      + rewrite length_append. simpl. lia. }
  rewrite !append_assoc. reflexivity.
Qed.

End UrlFacts.

(** A repository on another host, without the [.git] suffix. *)
Lemma convertToCommitDetailURL_other_host_witness :
  convertToCommitDetailURL "https://gitlab.com/acme/app" "abc123"
  = "https://gitlab.com/acme/app" +:+ "/" +:+ "abc123".
Proof.
  apply (convertToCommitDetailURL_other_host "https://gitlab.com/acme/app" "abc123").
  - apply Index_None; [discriminate | vm_compute; reflexivity].
  - apply Index_None; [discriminate | vm_compute; reflexivity].
Defined.

(** The repository of the concrete setting. *)
Lemma convertToCommitDetailURL_github_witness :
  convertToCommitDetailURL ("https://" +:+ "github.com" +:+ "/acme/app" +:+ ".git") "abc123"
  = "https://" +:+ "api.github.com/repos" +:+ "/acme/app" +:+ "/commits/" +:+ "abc123".
Proof.
  apply (convertToCommitDetailURL_github "https://" "/acme/app" "abc123").
  - assert (strings.Index "https://github.com/acme/app.git" ".git" = Some 27) as Hidx
      by (vm_compute; reflexivity).
    destruct (Index_Some "https://github.com/acme/app.git" ".git" 27
                ltac:(discriminate) Hidx) as (_ & _ & Hfirst).
    exact Hfirst.
  - assert (strings.Index "https://github.com/acme/app.git" "github.com" = Some 8)
      as Hidx by (vm_compute; reflexivity).
    destruct (Index_Some "https://github.com/acme/app.git" "github.com" 8
                ltac:(discriminate) Hidx) as (_ & _ & Hfirst).
    exact Hfirst.
Defined.

(** ** Logger set-up *)


